(** * Stat-Chat: streak detection and the query-time streak resolver

    A shallow embedding of [data_pipeline/detect_streaks.py] and of the
    [QueryEngine] class of [query_engine.py].

    Conventions of the embedding.
    - Python integers are [Z]; a nullable INTEGER column is [option Z]
      ([None] is SQL NULL / Python [None]); list indices and lengths are
      [nat].
    - Python floats are binary64 numbers, the primitive [float] of the
      standard library: division, addition and the comparisons are the
      IEEE 754 operations, and [round] and [format] are computed on the
      exact value of the float.
    - The calls into numpy and ruptures are calls into libraries that are
      not part of the repository: [np.mean] and the change-point detector
      are parameters of the functions that call them, and [np.convolve] is
      modelled in [Np].
    - A Python exception is the [Raise] case of [Py.result].
    - TEXT values are byte strings ([string]). *)

From Stdlib Require Import ZArith QArith Qround List String Ascii Lia Bool.
From Stdlib Require Import DecimalString Sorted Permutation Floats.
Import ListNotations.

Set Warnings "-inexact-float".

Local Open Scope string_scope.
Local Open Scope list_scope.
Local Open Scope Z_scope.

(* ================================================================== *)
(** ** Python primitives used by the program *)

Module Py.

Inductive exn : Type :=
| ZeroDivisionError
| OverflowError
| TypeError
| IndexError
| ValueError
| BadSegmentationParameters
| APIError.

Inductive result (A : Type) : Type :=
| Ok (a : A)
| Raise (e : exn).
Arguments Ok {A} a.
Arguments Raise {A} e.

Definition bind {A B} (m : result A) (f : A -> result B) : result B :=
  match m with
  | Ok a => f a
  | Raise e => Raise e
  end.

(** [for x in xs: ...] accumulating one value per element, stopping at the
    first exception. *)
Fixpoint mapM {A B} (f : A -> result B) (xs : list A) : result (list B) :=
  match xs with
  | [] => Ok []
  | x :: xs' =>
      bind (f x) (fun y => bind (mapM f xs') (fun ys => Ok (y :: ys)))
  end.

(** An integer operand of [+], [-] or [*]: [None] raises [TypeError]. *)
Definition int_operand (x : option Z) : result Z :=
  match x with
  | Some v => Ok v
  | None => Raise TypeError
  end.

(** [x and x > 0] used as a condition. *)
Definition and_positive (x : option Z) : bool :=
  match x with
  | Some v => negb (v =? 0) && (0 <? v)
  | None => false
  end.

(** [x or 0]. *)
Definition or_zero (x : option Z) : Z :=
  match x with
  | Some v => if v =? 0 then 0 else v
  | None => 0
  end.

(** An integer as an unrounded binary number. *)
Definition sf_of_int (z : Z) : spec_float :=
  match z with
  | Z0 => S754_zero false
  | Zpos p => S754_finite false p 0
  | Zneg p => S754_finite true p 0
  end.

(** The float nearest to the quotient of two integers (ties to even), the
    quotient being taken exactly. *)
Definition nearest_quotient (a b : Z) : float :=
  SF2Prim (SFdiv prec emax (sf_of_int a) (sf_of_int b)).

(** [a / b] on integers (true division): the correctly rounded quotient;
    a quotient beyond the largest float raises [OverflowError]. *)
Definition truediv (a b : Z) : result float :=
  if b =? 0 then Raise ZeroDivisionError
  else
    let q := nearest_quotient a b in
    if is_infinity q then Raise OverflowError else Ok q.

(** [a / b] on floats. *)
Definition fdiv (a b : float) : result float :=
  if (b =? 0)%float then Raise ZeroDivisionError
  else Ok (a / b)%float.

(** Nearest integer, ties to the even one (the rule of [round] and of
    [format]). *)
Definition round_half_even (q : Q) : Z :=
  let f := Qfloor q in
  match Qcompare (q - inject_Z f) (1 # 2) with
  | Lt => f
  | Gt => f + 1
  | Eq => if Z.even f then f else f + 1
  end.

(** The exact value of the finite float with sign [s], mantissa [m] and
    exponent [e]. *)
Definition exact (s : bool) (m : positive) (e : Z) : Q :=
  let z := if s then Zneg m else Zpos m in
  match e with
  | Z0 => inject_Z z
  | Zpos p => inject_Z (z * Z.pow_pos 2 p)
  | Zneg p => z # (Pos.pow 2 p)
  end.

(** The exact value of [x] in thousandths, rounded to an integer. *)
Definition thousandths (s : bool) (m : positive) (e : Z) : Z :=
  round_half_even (exact s m e * inject_Z 1000).

(** [round(x, 3)]: the exact value of [x] is rounded to three decimals and
    the float nearest to that decimal is returned; zeros, infinities and
    nan round to themselves, and a negative number that rounds to zero
    gives -0.0. *)
Definition round3 (x : float) : float :=
  match Prim2SF x with
  | S754_finite s m e =>
      let k := thousandths s m e in
      if k =? 0 then (if s then neg_zero else zero)
      else nearest_quotient k 1000
  | _ => x
  end.

(** [sum(...)] over integers. *)
Definition sum (xs : list Z) : Z := fold_left Z.add xs 0.

(** [xs[a:b]] for indices within [0, len(xs)]. *)
Definition slice {A} (xs : list A) (a b : nat) : list A :=
  firstn (b - a) (skipn a xs).

End Py.

Import Py.

Declare Scope py_scope.
Notation "x <- m ;; k" := (Py.bind m (fun x => k))
  (at level 61, m at next level, right associativity) : py_scope.
Local Open Scope py_scope.

(* ================================================================== *)
(** ** numpy primitives *)

Module Np.

(** The sum of the floats of a list, in index order. *)
Definition fsum (xs : list float) : float :=
  fold_left PrimFloat.add xs zero.

(** Entry [m] of the full discrete convolution of [a] with the box kernel
    [np.ones(w) / w]: the sum of [a[j] * (1/w)] over the [j] with
    [0 <= m - j < w]. *)
Definition box_full (a : list float) (w m : nat) : float :=
  let lo := (m + 1 - w)%nat in
  let k := Py.nearest_quotient 1 (Z.of_nat w) in
  fsum (map (fun v => (v * k)%float) (Py.slice a lo (m + 1))).

(** [np.convolve(a, np.ones(w) / w, mode='same')]: the central
    [max(len(a), w)] entries of the full convolution, starting at offset
    [(min(len(a), w) - 1) // 2]; an empty operand raises [ValueError].
    Each entry is summed in index order. *)
Definition convolve_same_box (a : list float) (w : nat)
  : Py.result (list float) :=
  let n := List.length a in
  if ((n =? 0) || (w =? 0))%nat then Raise ValueError
  else
    let off := ((Nat.min n w - 1) / 2)%nat in
    Ok (map (fun i => box_full a w (i + off)) (seq 0 (Nat.max n w))).

End Np.

(* ================================================================== *)
(** ** The change-point library *)

Module Ruptures.

(** The signal is taken at its exact values.  A finite float is an
    integer times a power of two; the floats of one signal are put on a
    common scale, [x = scaled k x / 2^k] with [k] the largest exponent
    needed.  An infinity or nan, whose cost the model leaves unspecified,
    counts as 0. *)
Definition exponent (x : float) : Z :=
  match Prim2SF x with
  | S754_finite _ _ e => e
  | _ => 0
  end.

Definition common_scale (signal : list float) : Z :=
  fold_left Z.max (map (fun x => - exponent x) signal) 0.

Definition scaled (k : Z) (x : float) : Z :=
  match Prim2SF x with
  | S754_finite s m e => (if s then Zneg m else Zpos m) * 2 ^ (e + k)
  | _ => 0
  end.

(** Modelled from the spec: the sum of squared deviations from the
    segment mean over [x[i:j]], the L2 segment cost that the external
    [ruptures] library (absent from the repository) evaluates.  For [n]
    integers of sum [s] the deviation of [v] from the mean is
    [(n * v - s) / n]. *)
Definition cost_l2 (x : list Z) (i j : nat) : Q :=
  let seg := Py.slice x i j in
  let n := Z.of_nat (List.length seg) in
  let s := Py.sum seg in
  Py.sum (map (fun v => (n * v - s) * (n * v - s)) seg) # Z.to_pos (n * n).

(** One row of the dynamic-programming table: an end index [t], the best
    penalised cost of a partition of [x[0:t]] and the breakpoints of one
    partition that reaches it. *)
Definition entry : Type := nat * (Q * list nat).

Definition extend (x : list Z) (pen : Q) (t : nat) (e : entry)
  : Q * list nat :=
  let '(s, (c, bks)) := e in
  ((c + cost_l2 x s t + pen)%Q, bks ++ [t]).

(** The first candidate of least cost. *)
Fixpoint argmin (best : Q * list nat) (cands : list (Q * list nat))
  : Q * list nat :=
  match cands with
  | [] => best
  | c :: cs =>
      if Qle_bool (fst best) (fst c) then argmin best cs else argmin c cs
  end.

Definition step (x : list Z) (m : nat) (pen : Q)
           (table : list entry) (t : nat) : list entry :=
  match map (extend x pen t)
            (filter (fun e => (fst e + m <=? t)%nat) table) with
  | [] => table
  | c :: cs => table ++ [(t, argmin c cs)]
  end.

(** Modelled from the spec: [Pelt(model="l2", min_size, jump=1)
    .fit(x).predict(pen)] of the external [ruptures] library, absent from
    the repository.  An exact minimiser, by dynamic programming over the
    end index, of the sum of the L2 segment costs plus [pen] per segment,
    every segment having at least [max min_size 1] points; the result is
    the increasing list of segment ends.  Costs and penalty are counted in
    units of [2^(-2k)], [k] being the common scale of the signal. *)
Definition predict (signal : list float) (min_size : nat) (pen : Q)
  : Py.result (list nat) :=
  let k := common_scale signal in
  let x := map (scaled k) signal in
  let pen := (pen * inject_Z (2 ^ (2 * k)))%Q in
  let m := Nat.max min_size 1 in
  let n := List.length x in
  if (n <? m)%nat then Raise BadSegmentationParameters
  else
    let table :=
      fold_left (step x m pen) (seq m (n + 1 - m)) [(0%nat, (0%Q, []))] in
    match find (fun e => (fst e =? n)%nat) table with
    | Some (_, (_, bks)) => Ok bks
    | None => Raise BadSegmentationParameters
    end.

End Ruptures.

(* ================================================================== *)
(** ** Storage: the tables the program reads and writes *)

Module Storage.

(** The columns of [game_batting_logs] that the program selects. *)
Record Game : Type := {
  g_date : string;
  g_ab : option Z;
  g_h : option Z;
  g_doubles : option Z;
  g_triples : option Z;
  g_hr : option Z;
  g_bb : option Z;
  g_so : option Z;
  g_pa : option Z
}.

Record LogRow : Type := {
  l_player_id : string;
  l_season : Z;
  l_game : Game
}.

Record PlayerRow : Type := {
  p_player_id : string;
  p_name : string
}.

Record SeasonStatRow : Type := {
  ss_player_id : string;
  ss_season : Z;
  ss_ops : option float
}.

(** The aggregate stat line of a segment, the dict that
    [compute_segment_stats] returns. *)
Record SegmentStats : Type := {
  start_date : string;
  end_date : string;
  num_games : nat;
  batting_avg : float;
  obp : float;
  slg : float;
  ops : float;
  home_runs : Z;
  hits : Z;
  at_bats : Z;
  walks : Z;
  strikeouts : Z
}.

(** A row of [streaks]; [s_id] is the AUTOINCREMENT key. *)
Record StreakRow : Type := {
  s_id : Z;
  s_player_id : string;
  s_season : Z;
  s_stats : SegmentStats;
  s_performance : string
}.

(** A row of [streaks_sensitive]. *)
Record SensitiveRow : Type := {
  x_id : Z;
  x_player_id : string;
  x_season : Z;
  x_stats : SegmentStats;
  x_performance : string;
  x_season_ops : float
}.

(** [streaks_seq] and [sensitive_seq] are the [sqlite_sequence] counters
    of the two AUTOINCREMENT tables: the largest key ever handed out,
    which DELETE does not reset. *)
Record DB : Type := {
  players : list PlayerRow;
  game_batting_logs : list LogRow;
  season_batting_stats : list SeasonStatRow;
  streaks : list StreakRow;
  streaks_seq : Z;
  streaks_sensitive : list SensitiveRow;
  sensitive_seq : Z
}.

(** ORDER BY: a stable insertion sort along a total preorder. *)
Fixpoint insert_by {A} (le : A -> A -> bool) (a : A) (xs : list A)
  : list A :=
  match xs with
  | [] => [a]
  | x :: xs' => if le a x then a :: xs else x :: insert_by le a xs'
  end.

Definition order_by {A} (le : A -> A -> bool) (xs : list A) : list A :=
  fold_right (insert_by le) [] xs.

(** SELECT DISTINCT on (player_id, season) pairs. *)
Definition pair_eqb (a b : string * Z) : bool :=
  String.eqb (fst a) (fst b) && (snd a =? snd b).

Fixpoint distinct (xs : list (string * Z)) : list (string * Z) :=
  match xs with
  | [] => []
  | x :: xs' =>
      x :: filter (fun y => negb (pair_eqb x y)) (distinct xs')
  end.

End Storage.

Import Storage.

(* ================================================================== *)
(** ** data_pipeline/detect_streaks.py *)

Module DetectStreaks.

Definition MIN_SEGMENT_SIZE : nat := 7.
Definition PENALTY : Q := 3.
Definition ROLLING_WINDOW : nat := 5.

(** SELECT DISTINCT player_id, season FROM game_batting_logs
    ORDER BY season, player_id *)
Definition get_player_seasons (db : DB) : list (string * Z) :=
  order_by
    (fun a b => (snd a <? snd b)
                || ((snd a =? snd b) && String.leb (fst a) (fst b)))
    (distinct (map (fun r => (l_player_id r, l_season r))
                   (game_batting_logs db))).

(** SELECT date, at_bats, ... FROM game_batting_logs
    WHERE player_id = ? AND season = ? ORDER BY date ASC *)
Definition get_game_logs (db : DB) (player_id : string) (season : Z)
  : list Game :=
  order_by
    (fun a b => String.leb (g_date a) (g_date b))
    (map l_game
         (filter (fun r => String.eqb (l_player_id r) player_id
                           && (l_season r =? season))
                 (game_batting_logs db))).

Definition total_bases (h doubles triples hr : Z) : Z :=
  (h - doubles - triples - hr) + 2 * doubles + 3 * triples + 4 * hr.

(** The body of the loop of [compute_game_ops]: the value appended for
    one game. *)
Definition game_ops (g : Game) : Py.result float :=
  if Py.and_positive (g_ab g) && Py.and_positive (g_pa g) then
    h <- Py.int_operand (g_h g) ;;
    doubles <- Py.int_operand (g_doubles g) ;;
    triples <- Py.int_operand (g_triples g) ;;
    hr <- Py.int_operand (g_hr g) ;;
    let tb := total_bases h doubles triples hr in
    ab <- Py.int_operand (g_ab g) ;;
    slg <- Py.truediv tb ab ;;
    bb <- Py.int_operand (g_bb g) ;;
    pa <- Py.int_operand (g_pa g) ;;
    obp <- Py.truediv (h + bb) pa ;;
    Ok (obp + slg)%float
  else Ok 0%float.

Definition compute_game_ops (games : list Game)
  : Py.result (list float) :=
  Py.mapM game_ops games.

Definition label_performance (segment_ops season_ops : float)
  : Py.result string :=
  if (season_ops =? 0)%float then Ok "average"
  else
    ratio <- Py.fdiv segment_ops season_ops ;;
    if (1.20 <=? ratio)%float then Ok "hot"
    else if (ratio <=? 0.80)%float then Ok "cold"
    else Ok "average".

Definition compute_segment_stats (games : list Game)
           (start_idx end_idx : nat) : Py.result SegmentStats :=
  let segment := Py.slice games start_idx end_idx in
  let total_ab := Py.sum (map (fun g => Py.or_zero (g_ab g)) segment) in
  let total_h := Py.sum (map (fun g => Py.or_zero (g_h g)) segment) in
  let total_2b := Py.sum (map (fun g => Py.or_zero (g_doubles g)) segment) in
  let total_3b := Py.sum (map (fun g => Py.or_zero (g_triples g)) segment) in
  let total_hr := Py.sum (map (fun g => Py.or_zero (g_hr g)) segment) in
  let total_bb := Py.sum (map (fun g => Py.or_zero (g_bb g)) segment) in
  let total_so := Py.sum (map (fun g => Py.or_zero (g_so g)) segment) in
  let total_pa := Py.sum (map (fun g => Py.or_zero (g_pa g)) segment) in
  avg <- (if 0 <? total_ab then Py.truediv total_h total_ab else Ok 0%float) ;;
  obp <- (if 0 <? total_pa then Py.truediv (total_h + total_bb) total_pa
          else Ok 0%float) ;;
  let tb := total_bases total_h total_2b total_3b total_hr in
  slg <- (if 0 <? total_ab then Py.truediv tb total_ab else Ok 0%float) ;;
  let ops := (obp + slg)%float in
  match segment, rev segment with
  | first :: _, last :: _ =>
      Ok {| start_date := g_date first;
            end_date := g_date last;
            num_games := List.length segment;
            batting_avg := Py.round3 avg;
            obp := Py.round3 obp;
            slg := Py.round3 slg;
            ops := Py.round3 ops;
            home_runs := total_hr;
            hits := total_h;
            at_bats := total_ab;
            walks := total_bb;
            strikeouts := total_so |}
  | _, _ => Raise IndexError
  end.

(** INSERT INTO streaks: the new row takes the next AUTOINCREMENT key. *)
Definition insert_streak (tbl : list StreakRow * Z) (player_id : string)
           (season : Z) (stats : SegmentStats) (performance : string)
  : list StreakRow * Z :=
  let id := snd tbl + 1 in
  (fst tbl ++ [ {| s_id := id; s_player_id := player_id;
                   s_season := season; s_stats := stats;
                   s_performance := performance |} ],
   id).

Definition SENSITIVE_PENALTY : Q := 15 # 10.
Definition SENSITIVE_MAX_SEGMENT : nat := 30.

(** INSERT INTO streaks_sensitive. *)
Definition insert_sensitive (tbl : list SensitiveRow * Z)
           (player_id : string) (season : Z) (stats : SegmentStats)
           (performance : string) (season_ops : float)
  : list SensitiveRow * Z :=
  let id := snd tbl + 1 in
  (fst tbl ++ [ {| x_id := id; x_player_id := player_id;
                   x_season := season; x_stats := stats;
                   x_performance := performance;
                   x_season_ops := season_ops |} ],
   id).

(** SELECT player_id, season, COUNT( * ) FROM streaks
    GROUP BY player_id, season HAVING seg_count = 1.
    The groups come in the order of their key. *)
Definition single_segment_players (db : DB) : list (string * Z) :=
  let keys := map (fun r => (s_player_id r, s_season r)) (streaks db) in
  filter
    (fun k => (List.length (filter (pair_eqb k) keys) =? 1)%nat)
    (order_by
       (fun a b =>
          String.ltb (fst a) (fst b)
          || (String.eqb (fst a) (fst b) && (snd a <=? snd b)))
       (distinct keys)).

Section Detection.

(** The call [rpt.Pelt(model="l2", min_size=min_size, jump=1)
    .fit(smoothed).predict(pen=penalty)] into the external library. *)
Variable pelt_predict : list float -> nat -> Q -> Py.result (list nat).

(** The call [np.mean(ops_signal)] into the external library. *)
Variable np_mean : list float -> float.

Definition detect_change_points (signal : list float) (min_size : nat)
           (penalty : Q) : Py.result (list nat) :=
  if (List.length signal <? min_size * 2)%nat then
    Ok [List.length signal]
  else
    smoothed <- Np.convolve_same_box signal ROLLING_WINDOW ;;
    pelt_predict smoothed min_size penalty.

(** The loop "Build segments" of [detect_all_streaks], from
    [start_idx] on, over the remaining breakpoints. *)
Fixpoint build_segments (player_id : string) (season : Z)
         (games : list Game) (season_ops : float) (breakpoints : list nat)
         (start_idx : nat) (tbl : list StreakRow * Z)
  : Py.result (list StreakRow * Z) :=
  match breakpoints with
  | [] => Ok tbl
  | end_idx :: rest =>
      let end_idx :=
        if (List.length games <? end_idx)%nat then List.length games
        else end_idx in
      stats <- compute_segment_stats games start_idx end_idx ;;
      performance <- label_performance (ops stats) season_ops ;;
      build_segments player_id season games season_ops rest end_idx
                     (insert_streak tbl player_id season stats
                                    performance)
  end.

(** One iteration of the loop over player-seasons. *)
Definition detect_player_season (db : DB) (tbl : list StreakRow * Z)
           (ps : string * Z) : Py.result (list StreakRow * Z) :=
  let '(player_id, season) := ps in
  let games := get_game_logs db player_id season in
  if (List.length games <? MIN_SEGMENT_SIZE * 2)%nat then Ok tbl
  else
    ops_signal <- compute_game_ops games ;;
    let season_ops := np_mean ops_signal in
    breakpoints <- detect_change_points ops_signal MIN_SEGMENT_SIZE
                                        PENALTY ;;
    build_segments player_id season games season_ops breakpoints 0%nat
                   tbl.

Fixpoint detect_loop (db : DB) (player_seasons : list (string * Z))
         (tbl : list StreakRow * Z) : Py.result (list StreakRow * Z) :=
  match player_seasons with
  | [] => Ok tbl
  | ps :: rest =>
      tbl' <- detect_player_season db tbl ps ;;
      detect_loop db rest tbl'
  end.

(** [detect_all_streaks]: DELETE FROM streaks, then one INSERT per
    detected segment.  The result is the database as committed at the
    end of the run; an exception leaves the function before that. *)
Definition detect_all_streaks (db : DB) : Py.result DB :=
  let cleared : list StreakRow * Z := ([], streaks_seq db) in
  tbl <- detect_loop db (get_player_seasons db) cleared ;;
  Ok {| players := players db;
        game_batting_logs := game_batting_logs db;
        season_batting_stats := season_batting_stats db;
        streaks := fst tbl;
        streaks_seq := snd tbl;
        streaks_sensitive := streaks_sensitive db;
        sensitive_seq := sensitive_seq db |}.

(** The loop "Build segments" of [detect_sensitive_streaks]: only
    the segments of [MIN_SEGMENT_SIZE] to [SENSITIVE_MAX_SEGMENT]
    games are stored. *)
Fixpoint build_sensitive_segments (player_id : string) (season : Z)
         (games : list Game) (season_ops : float) (breakpoints : list nat)
         (start_idx : nat) (tbl : list SensitiveRow * Z)
  : Py.result (list SensitiveRow * Z) :=
  match breakpoints with
  | [] => Ok tbl
  | end_idx :: rest =>
      let end_idx :=
        if (List.length games <? end_idx)%nat then List.length games
        else end_idx in
      let num_games := (end_idx - start_idx)%nat in
      if ((MIN_SEGMENT_SIZE <=? num_games)
          && (num_games <=? SENSITIVE_MAX_SEGMENT))%nat
      then
        stats <- compute_segment_stats games start_idx end_idx ;;
        performance <- label_performance (ops stats) season_ops ;;
        build_sensitive_segments player_id season games season_ops rest
          end_idx
          (insert_sensitive tbl player_id season stats performance
                            (Py.round3 season_ops))
      else
        build_sensitive_segments player_id season games season_ops rest
          end_idx tbl
  end.

Definition detect_sensitive_player_season (db : DB)
           (tbl : list SensitiveRow * Z) (ps : string * Z)
  : Py.result (list SensitiveRow * Z) :=
  let '(player_id, season) := ps in
  let games := get_game_logs db player_id season in
  if (List.length games <? MIN_SEGMENT_SIZE * 2)%nat then Ok tbl
  else
    ops_signal <- compute_game_ops games ;;
    let season_ops := np_mean ops_signal in
    breakpoints <- detect_change_points ops_signal MIN_SEGMENT_SIZE
                                        SENSITIVE_PENALTY ;;
    build_sensitive_segments player_id season games season_ops
                             breakpoints 0%nat tbl.

Fixpoint detect_sensitive_loop (db : DB)
         (player_seasons : list (string * Z))
         (tbl : list SensitiveRow * Z)
  : Py.result (list SensitiveRow * Z) :=
  match player_seasons with
  | [] => Ok tbl
  | ps :: rest =>
      tbl' <- detect_sensitive_player_season db tbl ps ;;
      detect_sensitive_loop db rest tbl'
  end.

(** [detect_sensitive_streaks]: DELETE FROM streaks_sensitive, then the
    second pass over the player-seasons with one primary segment. *)
Definition detect_sensitive_streaks (db : DB) : Py.result DB :=
  let cleared : list SensitiveRow * Z := ([], sensitive_seq db) in
  tbl <- detect_sensitive_loop db (single_segment_players db) cleared ;;
  Ok {| players := players db;
        game_batting_logs := game_batting_logs db;
        season_batting_stats := season_batting_stats db;
        streaks := streaks db;
        streaks_seq := streaks_seq db;
        streaks_sensitive := fst tbl;
        sensitive_seq := snd tbl |}.

End Detection.

(** A Detection Record of the primary tier: a row of [streaks] without
    its surrogate key. *)
Definition detection_record (r : StreakRow)
  : string * Z * SegmentStats * string :=
  (s_player_id r, s_season r, s_stats r, s_performance r).

End DetectStreaks.

(* ================================================================== *)
(** ** Text: the string operations of the query engine *)

Module Text.

Definition contains (needle hay : string) : bool :=
  match String.index 0 needle hay with
  | Some _ => true
  | None => false
  end.

Definition lower_ascii (c : ascii) : ascii :=
  let n := nat_of_ascii c in
  if ((65 <=? n) && (n <=? 90))%nat then ascii_of_nat (n + 32) else c.

Fixpoint lower (s : string) : string :=
  match s with
  | EmptyString => EmptyString
  | String c s' => String (lower_ascii c) (lower s')
  end.

Fixpoint join (sep : string) (xs : list string) : string :=
  match xs with
  | [] => EmptyString
  | [x] => x
  | x :: xs' => String.append x (String.append sep (join sep xs'))
  end.

Fixpoint repeat_char (c : ascii) (n : nat) : string :=
  match n with
  | O => EmptyString
  | S n' => String c (repeat_char c n')
  end.

Definition is_empty (s : string) : bool :=
  match s with
  | EmptyString => true
  | _ => false
  end.

(** [str(n)] of an integer. *)
Definition str_int (z : Z) : string :=
  DecimalString.NilZero.string_of_int (Z.to_int z).

(** Regular-expression helpers: the rest of [s] after the literal [p]. *)
Fixpoint drop_prefix (p s : string) : option string :=
  match p, s with
  | EmptyString, _ => Some s
  | String a p', String b s' =>
      if Ascii.eqb a b then drop_prefix p' s' else None
  | String _ _, EmptyString => None
  end.

(** The longest prefix of [s] whose characters satisfy [f], and the
    rest. *)
Fixpoint span (f : ascii -> bool) (s : string) : string * string :=
  match s with
  | EmptyString => (EmptyString, EmptyString)
  | String c s' =>
      if f c then let '(a, b) := span f s' in (String c a, b)
      else (EmptyString, s)
  end.

(** [re.search]: the first position of [s] at which [f] matches. *)
Fixpoint search {A} (f : string -> option A) (s : string) : option A :=
  match f s with
  | Some x => Some x
  | None =>
      match s with
      | EmptyString => None
      | String _ s' => search f s'
      end
  end.

(** The class [\s] on ASCII text. *)
Definition is_space (c : ascii) : bool :=
  let n := nat_of_ascii c in
  (((9 <=? n) && (n <=? 13)) || ((28 <=? n) && (n <=? 32)))%nat.

(** The class [\d] on ASCII text. *)
Definition is_digit (c : ascii) : bool :=
  let n := nat_of_ascii c in
  ((48 <=? n) && (n <=? 57))%nat.

Definition digit_value (c : ascii) : Z := Z.of_nat (nat_of_ascii c) - 48.

Fixpoint int_of_digits (acc : Z) (s : string) : Z :=
  match s with
  | EmptyString => acc
  | String c s' => int_of_digits (10 * acc + digit_value c) s'
  end.

(** Group 1 of [LIKE\s+'%([^%]+)%'] matched at the start of [s]. *)
Definition like_pattern_at (s : string) : option string :=
  match drop_prefix "LIKE" s with
  | None => None
  | Some r1 =>
      let '(ws, r2) := span is_space r1 in
      if is_empty ws then None
      else
        match drop_prefix "'%" r2 with
        | None => None
        | Some r3 =>
            let '(name, r4) :=
              span (fun c => negb (Ascii.eqb c "%"%char)) r3 in
            if is_empty name then None
            else
              match drop_prefix "%'" r4 with
              | Some _ => Some name
              | None => None
              end
        end
  end.

(** Group 1 of [season\s*=\s*(\d{4})] matched at the start of [s]. *)
Definition season_pattern_at (s : string) : option string :=
  match drop_prefix "season" s with
  | None => None
  | Some r1 =>
      let '(_, r2) := span is_space r1 in
      match drop_prefix "=" r2 with
      | None => None
      | Some r3 =>
          let '(_, r4) := span is_space r3 in
          let d := String.substring 0 4 r4 in
          if ((String.length d =? 4)%nat
              && is_empty (snd (span is_digit d)))%bool
          then Some d else None
      end
  end.

(** SQL [name LIKE '%' || pat || '%'] for a [pat] without [%]: [pat]
    occurs in [name], ASCII letters compared without case and [_]
    standing for any one character. *)
Fixpoint like_prefix (pat s : string) : bool :=
  match pat, s with
  | EmptyString, _ => true
  | String c p', String d s' =>
      (Ascii.eqb c "_"%char
       || Ascii.eqb (lower_ascii c) (lower_ascii d))
      && like_prefix p' s'
  | String _ _, EmptyString => false
  end.

Fixpoint like_contains (pat s : string) : bool :=
  like_prefix pat s
  || match s with
     | EmptyString => false
     | String _ s' => like_contains pat s'
     end.

(** The decimal digits of [r] thousandths, with three decimals. *)
Definition fixed3 (r : Z) : string :=
  let frac := str_int (r mod 1000) in
  let pad := repeat_char "0"%char (3 - String.length frac) in
  String.append (str_int (r / 1000))
    (String.append "." (String.append pad frac)).

(** [f"{val:.3f}"]: the exact value of the float, rounded to three
    decimals, with the sign of the float. *)
Definition fmt (val : float) : string :=
  match Prim2SF val with
  | S754_nan => "nan"
  | S754_infinity s => if s then "-inf" else "inf"
  | S754_zero s => if s then "-0.000" else "0.000"
  | S754_finite s m e =>
      String.append (if s then "-" else EmptyString)
                    (fixed3 (Z.abs (Py.thousandths s m e)))
  end.

(** The character U+2014 of the messages, as its UTF-8 bytes. *)
Definition emdash : string :=
  String (ascii_of_nat 226)
    (String (ascii_of_nat 128) (String (ascii_of_nat 148) EmptyString)).

End Text.

(* ================================================================== *)
(** ** query_engine.py *)

Module QueryEngine.

(** A value of a fetched row. *)
Inductive sqlval : Type :=
| VNull
| VInt (z : Z)
| VReal (q : float)
| VText (s : string).

Definition row : Type := list sqlval.

(** One [cursor.execute]: the statement text and its parameters. *)
Record Stmt : Type := {
  sql_text : string;
  sql_params : list sqlval
}.

(** A computation on a connection: its outcome and the statements it
    executed, in order. *)
Definition M (A : Type) : Type := Py.result A * list Stmt.

Definition ret {A} (a : A) : M A := (Ok a, []).

Definition lift {A} (r : Py.result A) : M A := (r, []).

Definition bindM {A B} (m : M A) (f : A -> M B) : M B :=
  match fst m with
  | Ok a => let '(r, log) := f a in (r, snd m ++ log)
  | Raise e => (Raise e, snd m)
  end.

Definition execute (text : string) (params : list sqlval) : M unit :=
  (Ok tt, [ {| sql_text := text; sql_params := params |} ]).

Definition history : Type := list (string * string).

Definition MAX_HISTORY : nat := 5.

(** The hosted language model behind [LLMService].  [route_query] gives
    the ["type"] entry of the decoded answer, if there is one. *)
Record LLMService : Type := {
  route_query : string -> history -> Py.result (option string);
  generate_sql : string -> history -> Py.result string;
  generate_answer :
    string -> string -> string -> history -> Py.result string;
  describe_streaks : string -> string -> history -> Py.result string
}.

Definition FALLBACK_PENALTY : Q := 15 # 10.
Definition FALLBACK_MIN_SEGMENT : nat := 7.
Definition FALLBACK_MAX_SEGMENT : nat := 30.
Definition FALLBACK_ROLLING_WINDOW : nat := 5.

(** The dict that [_compute_segment] returns, with the ["season_ops"]
    entry that its caller adds. *)
Record Segment : Type := {
  seg_start_date : string;
  seg_end_date : string;
  seg_num_games : nat;
  seg_avg : float;
  seg_obp : float;
  seg_slg : float;
  seg_ops : float;
  seg_hr : Z;
  seg_hits : Z;
  seg_ab : Z;
  seg_bb : Z;
  seg_season_ops : float
}.

Definition _compute_segment (games : list Game) (start_idx end_idx : nat)
           (season_ops : float) : Py.result Segment :=
  let seg := Py.slice games start_idx end_idx in
  let ab := Py.sum (map (fun g => Py.or_zero (g_ab g)) seg) in
  let h := Py.sum (map (fun g => Py.or_zero (g_h g)) seg) in
  let d := Py.sum (map (fun g => Py.or_zero (g_doubles g)) seg) in
  let t := Py.sum (map (fun g => Py.or_zero (g_triples g)) seg) in
  let hr := Py.sum (map (fun g => Py.or_zero (g_hr g)) seg) in
  let bb := Py.sum (map (fun g => Py.or_zero (g_bb g)) seg) in
  let pa := Py.sum (map (fun g => Py.or_zero (g_pa g)) seg) in
  avg <- (if 0 <? ab then q <- Py.truediv h ab ;; Ok (Py.round3 q)
          else Ok 0%float) ;;
  obp <- (if 0 <? pa then q <- Py.truediv (h + bb) pa ;; Ok (Py.round3 q)
          else Ok 0%float) ;;
  let tb := DetectStreaks.total_bases h d t hr in
  slg <- (if 0 <? ab then q <- Py.truediv tb ab ;; Ok (Py.round3 q)
          else Ok 0%float) ;;
  match seg, rev seg with
  | first :: _, last :: _ =>
      Ok {| seg_start_date := g_date first;
            seg_end_date := g_date last;
            seg_num_games := List.length seg;
            seg_avg := avg;
            seg_obp := obp;
            seg_slg := slg;
            seg_ops := Py.round3 (obp + slg)%float;
            seg_hr := hr;
            seg_hits := h;
            seg_ab := ab;
            seg_bb := bb;
            seg_season_ops := season_ops |}
  | _, _ => Raise IndexError
  end.

(** [max(xs, key=...)] with the position of the chosen element: a later
    element replaces the current one when its key is greater ([>]). *)
Fixpoint max_from {A} (key : A -> float) (best : nat * A) (i : nat)
         (xs : list A) : nat * A :=
  match xs with
  | [] => best
  | x :: xs' =>
      if (key (snd best) <? key x)%float
      then max_from key (i, x) (S i) xs'
      else max_from key best (S i) xs'
  end.

(** [min(xs, key=...)]: a later element replaces the current one when
    its key is less ([<]). *)
Fixpoint min_from {A} (key : A -> float) (best : nat * A) (i : nat)
         (xs : list A) : nat * A :=
  match xs with
  | [] => best
  | x :: xs' =>
      if (key x <? key (snd best))%float
      then min_from key (i, x) (S i) xs'
      else min_from key best (S i) xs'
  end.

(** The first loop of [_find_best_worst_stretches]: the player id and the
    season read off the values of a row. *)
Definition is_label (s : string) : bool :=
  String.eqb s "hot" || String.eqb s "cold" || String.eqb s "average".

Definition falsy_str (o : option string) : bool :=
  match o with
  | Some s => Text.is_empty s
  | None => true
  end.

Fixpoint scan_row (vals : row) (player_id : option string)
         (season : option Z) : option string * option Z :=
  match vals with
  | [] => (player_id, season)
  | VText s :: rest =>
      if falsy_str player_id && negb (String.prefix "20" s)
         && negb (is_label s)
      then scan_row rest (Some s) season
      else scan_row rest player_id season
  | VInt z :: rest =>
      match season with
      | None =>
          if (2020 <=? z) && (z <=? 2030)
          then scan_row rest player_id (Some z)
          else scan_row rest player_id season
      | Some _ => scan_row rest player_id season
      end
  | _ :: rest => scan_row rest player_id season
  end.

Definition SQL_GAME_LOGS : string :=
  "SELECT date, at_bats, hits, doubles, triples, home_runs, walks, plate_appearances FROM game_batting_logs WHERE player_id = ? AND season = ? ORDER BY date ASC".

Definition SQL_ALL_STREAKS : string :=
  "SELECT s.* FROM streaks s JOIN players p ON s.player_id = p.player_id WHERE p.name LIKE ? AND s.season = ? ORDER BY s.start_date".

Definition segment_line (title : string) (s : Segment) : string :=
  Text.join EmptyString
    [ title; " segment: "; seg_start_date s; " to "; seg_end_date s;
      " ("; Text.str_int (Z.of_nat (seg_num_games s)); " games) ";
      Text.emdash; " ";
      Text.fmt (seg_avg s); "/"; Text.fmt (seg_obp s); "/";
      Text.fmt (seg_slg s); " ("; Text.fmt (seg_ops s); " OPS), ";
      Text.str_int (seg_hr s); " HR, "; Text.str_int (seg_hits s);
      " H in "; Text.str_int (seg_ab s); " AB" ].

(** SELECT s.* : a row of [streaks] as a tuple of values. *)
Definition streak_tuple (r : StreakRow) : row :=
  let st := s_stats r in
  [ VInt (s_id r); VText (s_player_id r); VInt (s_season r);
    VText (start_date st); VText (end_date st);
    VInt (Z.of_nat (num_games st));
    VReal (batting_avg st); VReal (obp st); VReal (slg st);
    VReal (ops st);
    VInt (home_runs st); VInt (hits st); VInt (at_bats st);
    VInt (walks st); VInt (strikeouts st); VText (s_performance r) ].

Definition STREAK_COLUMNS : list string :=
  [ "id"; "player_id"; "season"; "start_date"; "end_date"; "num_games";
    "batting_avg"; "obp"; "slg"; "ops"; "home_runs"; "hits"; "at_bats";
    "walks"; "strikeouts"; "performance" ].

Notation "x <~ m ;; k" := (bindM m (fun x => k))
  (at level 61, m at next level, right associativity).

Definition nl : string := String (ascii_of_nat 10) EmptyString.

(** [self.history.append(...)] and the cut to the last [MAX_HISTORY]
    entries. *)
Definition _add_to_history (hist : history) (question answer : string)
  : history :=
  let h := hist ++ [(question, answer)] in
  if (MAX_HISTORY <? List.length h)%nat
  then skipn (List.length h - MAX_HISTORY) h
  else h.

Section Engine.

Variable llm : LLMService.

(** The call into the external change-point library. *)
Variable pelt_predict : list float -> nat -> Q -> Py.result (list nat).

(** The call [np.mean(signal)] into the external library. *)
Variable np_mean : list float -> float.

(** [cursor.execute(sql)], [cursor.description] and
    [cursor.fetchall()] on a statement written by the language model:
    the text of the exception, or the column names and the rows. *)
Variable sqlite_run : DB -> string -> string + (list string * list row).

(** [str(x)] of a float. *)
Variable repr_float : float -> string.

(** The database at [self.db_path]. *)
Variable db : DB.

Definition py_str (v : sqlval) : string :=
  match v with
  | VNull => "None"
  | VInt z => Text.str_int z
  | VReal q => repr_float q
  | VText s => s
  end.

(** The header line, the dashes and one line per row. *)
Definition format_rows (columns : list string) (rows : list row)
  : string :=
  let header := Text.join " | " columns in
  Text.join nl
    ([header; Text.repeat_char "-"%char (String.length header)]
       ++ map (fun r => Text.join " | " (map py_str r)) rows).

(** The loop "Build segments" of [_find_best_worst_stretches]. *)
Fixpoint collect_segments (games : list Game) (season_ops : float)
         (breakpoints : list nat) (start_idx : nat)
  : Py.result (list Segment) :=
  match breakpoints with
  | [] => Ok []
  | end_idx :: rest =>
      let end_idx :=
        if (List.length games <? end_idx)%nat then List.length games
        else end_idx in
      let num_games := (end_idx - start_idx)%nat in
      if ((FALLBACK_MIN_SEGMENT <=? num_games)
          && (num_games <=? FALLBACK_MAX_SEGMENT))%nat
      then
        seg <- _compute_segment games start_idx end_idx season_ops ;;
        segs <- collect_segments games season_ops rest end_idx ;;
        Ok (seg :: segs)
      else collect_segments games season_ops rest end_idx
  end.

(** The candidate segments of the live recomputation, from the game
    logs on: signal, mean, smoothing, change points, segments. *)
Definition fallback_segments (games : list Game)
  : Py.result (float * list Segment) :=
  signal <- Py.mapM DetectStreaks.game_ops games ;;
  let season_ops := np_mean signal in
  smoothed <- Np.convolve_same_box signal FALLBACK_ROLLING_WINDOW ;;
  breakpoints <- pelt_predict smoothed FALLBACK_MIN_SEGMENT
                              FALLBACK_PENALTY ;;
  segments <- collect_segments games season_ops breakpoints 0%nat ;;
  Ok (season_ops, segments).

Definition hottest (segments : list Segment) : option (nat * Segment) :=
  match segments with
  | [] => None
  | s :: rest => Some (max_from seg_ops (0%nat, s) 1%nat rest)
  end.

Definition coldest (segments : list Segment) : option (nat * Segment) :=
  match segments with
  | [] => None
  | s :: rest => Some (min_from seg_ops (0%nat, s) 1%nat rest)
  end.

Definition fallback_text (season_ops : float) (segments : list Segment)
  : string :=
  match hottest segments, coldest segments with
  | Some (ih, hot), Some (ic, cold) =>
      Text.join nl
        ([ Text.join EmptyString
             [ "SENSITIVE STREAK FALLBACK (lower-threshold change-point detection, ";
               Text.str_int (Z.of_nat FALLBACK_MIN_SEGMENT); "-";
               Text.str_int (Z.of_nat FALLBACK_MAX_SEGMENT);
               " game segments):" ];
           String.append "Player season OPS: " (Text.fmt season_ops);
           segment_line "Hottest" hot ]
           ++ (if (ic =? ih)%nat then []
               else [segment_line "Coldest" cold]))
  | _, _ => EmptyString
  end.

Definition _find_best_worst_stretches (streak_row : row) : M string :=
  match scan_row streak_row None None with
  | (Some player_id, Some season) =>
      if Text.is_empty player_id then ret EmptyString
      else
        _ <~ execute SQL_GAME_LOGS [VText player_id; VInt season] ;;
        let games := DetectStreaks.get_game_logs db player_id season in
        if (List.length games <? FALLBACK_MIN_SEGMENT * 2)%nat
        then ret EmptyString
        else
          r <~ lift (fallback_segments games) ;;
          ret (fallback_text (fst r) (snd r))
  | _ => ret EmptyString
  end.

Definition _get_all_streaks_for_query (original_sql : string)
  : M (list row) :=
  match Text.search Text.like_pattern_at original_sql with
  | None => ret []
  | Some player_name =>
      let season :=
        match Text.search Text.season_pattern_at original_sql with
        | Some d => Text.int_of_digits 0 d
        | None => 2024
        end in
      _ <~ execute SQL_ALL_STREAKS
             [ VText (String.append "%" (String.append player_name "%"));
               VInt season ] ;;
      ret (map streak_tuple
             (order_by
                (fun a b => String.leb (start_date (s_stats a))
                                       (start_date (s_stats b)))
                (flat_map
                   (fun s =>
                      map (fun _ => s)
                          (filter
                             (fun p =>
                                String.eqb (s_player_id s)
                                           (p_player_id p)
                                && Text.like_contains player_name
                                                      (p_name p))
                             (players db)))
                   (filter (fun s => s_season s =? season)
                           (streaks db)))))
  end.

(** [streak_data], with the output of the live recomputation appended
    when there is one. *)
Definition with_fallback (streak_data : string) (first_row : row)
  : M string :=
  fallback <~ _find_best_worst_stretches first_row ;;
  if Text.is_empty fallback then ret streak_data
  else ret (String.append streak_data
              (String.append nl (String.append nl fallback))).

Definition NO_STREAK_QUERY : string :=
  "I don't have streak data for that query. Try asking about a specific player's streaks in 2024 or 2025.".

Definition NO_STREAK_DATA : string :=
  "I don't have streak data for that player/season. Streak data is available for qualified batters (400+ PA) in 2024-2025.".

(** The part of [_handle_streak_query] after the rows are settled. *)
Definition narrate_streaks (question : string) (hist : history)
           (columns : list string) (rows : list row)
           (used_fallback : bool) : M string :=
  let streak_data := format_rows columns rows in
  streak_data <~
    (if (used_fallback || (List.length rows =? 1)%nat)%bool
     then with_fallback streak_data (hd [] rows)
     else ret streak_data) ;;
  lift (describe_streaks llm question streak_data hist).

Definition _handle_streak_query (question : string) (hist : history)
  : M string :=
  sql <~ lift (generate_sql llm question hist) ;;
  if Text.contains "OFF_TOPIC" sql || Text.contains "NO_DATA" sql
  then ret NO_STREAK_QUERY
  else
    _ <~ execute sql [] ;;
    match sqlite_run db sql with
    | inl e =>
        ret (Text.join EmptyString
               [ "I had trouble with that streak query. Could you rephrase? (Error: ";
                 e; ")" ])
    | inr (columns, []) =>
        all_rows <~ _get_all_streaks_for_query sql ;;
        match all_rows with
        | [] => ret NO_STREAK_DATA
        | _ => narrate_streaks question hist STREAK_COLUMNS all_rows true
        end
    | inr (columns, rows) =>
        narrate_streaks question hist columns rows false
    end.

Definition OFF_TOPIC_ANSWER : string :=
  Text.join EmptyString
    [ "I'm a baseball stats engine "; Text.emdash;
      " ask me about player stats, leaders, averages, and more!" ].

Definition NO_DATA_ANSWER : string :=
  "I don't have the data needed for that question yet. Try asking about 2024 season batting stats!".

(** The last part of [_handle_sql_query]: "Format results" and
    "Generate answer". *)
Definition answer_sql (question : string) (hist : history)
           (sql : string) (is_streak_query : bool)
           (columns : list string) (rows : list row) : M string :=
  let results :=
    match rows with
    | [] => "No results found."
    | _ => format_rows columns (firstn 50 rows)
    end in
  match is_streak_query, rows with
  | true, _ :: _ => lift (describe_streaks llm question results hist)
  | _, _ => lift (generate_answer llm question sql results hist)
  end.

Definition _handle_sql_query (question : string) (hist : history)
  : M string :=
  sql <~ lift (generate_sql llm question hist) ;;
  if Text.contains "OFF_TOPIC" sql then ret OFF_TOPIC_ANSWER
  else if Text.contains "NO_DATA" sql then ret NO_DATA_ANSWER
  else
    _ <~ execute sql [] ;;
    match sqlite_run db sql with
    | inl e =>
        ret (Text.join EmptyString
               [ "I had trouble with that query. Could you rephrase? (Error: ";
                 e; ")" ])
    | inr (columns, rows) =>
        let is_streak_query :=
          Text.contains "streaks" (Text.lower sql) in
        match rows, is_streak_query with
        | [], true =>
            all_rows <~ _get_all_streaks_for_query sql ;;
            match all_rows with
            | [] =>
                answer_sql question hist sql is_streak_query columns rows
            | first :: others =>
                let streak_data := format_rows STREAK_COLUMNS all_rows in
                streak_data <~
                  (match others with
                   | [] => with_fallback streak_data first
                   | _ => ret streak_data
                   end) ;;
                lift (describe_streaks llm question streak_data hist)
            end
        | _, _ =>
            answer_sql question hist sql is_streak_query columns rows
        end
    end.

(** [ask]: the answer with the statements executed, and the history
    afterwards.  An exception leaves [ask] before the history is
    touched. *)
Definition ask (hist : history) (question : string)
  : M string * history :=
  let m :=
    route <~ lift (route_query llm question hist) ;;
    let query_type :=
      match route with
      | Some t => t
      | None => "simple_lookup"
      end in
    if String.eqb query_type "streak_finder"
    then _handle_streak_query question hist
    else _handle_sql_query question hist in
  match fst m with
  | Ok answer => (m, _add_to_history hist question answer)
  | Raise _ => (m, hist)
  end.

(** A session: the questions asked one after the other on one engine. *)
Fixpoint ask_all (hist : history) (questions : list string) : history :=
  match questions with
  | [] => hist
  | q :: rest => ask_all (snd (ask hist q)) rest
  end.

End Engine.

End QueryEngine.

(* ================================================================== *)
(** ** Notions used to state the properties *)

Module Properties.

Import QueryEngine.

(** Breakpoints that increase strictly from above [lo]. *)
Fixpoint increasing_from (lo : nat) (bks : list nat) : Prop :=
  match bks with
  | [] => True
  | b :: rest => (lo < b)%nat /\ increasing_from b rest
  end.

(** The [start_idx, end_idx) ranges that the "Build segments" loops
    visit for a list of breakpoints, [n] being [len(games)]. *)
Fixpoint segment_ranges (n : nat) (bks : list nat) (start_idx : nat)
  : list (nat * nat) :=
  match bks with
  | [] => []
  | end_idx :: rest =>
      let end_idx := if (n <? end_idx)%nat then n else end_idx in
      (start_idx, end_idx) :: segment_ranges n rest end_idx
  end.

(** The indices covered by a list of ranges, in the order visited. *)
Definition covered (ranges : list (nat * nat)) : list nat :=
  List.concat (map (fun r => seq (fst r) (snd r - fst r)) ranges).

(** The rows are in ascending date order. *)
Fixpoint sorted_by_date (games : list Game) : bool :=
  match games with
  | [] => true
  | g :: rest =>
      match rest with
      | [] => true
      | g' :: _ => String.leb (g_date g) (g_date g') && sorted_by_date rest
      end
  end.

(** The sum of one count over a segment, [sum(g[k] or 0 for g in seg)]. *)
Definition total (f : Game -> option Z) (seg : list Game) : Z :=
  Py.sum (map (fun g => Py.or_zero (f g)) seg).

(** A rate guarded by its denominator: [num / den if den > 0 else 0]. *)
Definition rate (num den : Z) : Py.result float :=
  if 0 <? den then Py.truediv num den else Ok 0%float.

(** The OPS of the games [start_idx, end_idx) before any rounding: the
    on-base and slugging rates of the summed counts, added (the [ops] of
    [compute_segment_stats] before [round]). *)
Definition unrounded_ops (games : list Game) (start_idx end_idx : nat)
  : Py.result float :=
  let seg := Py.slice games start_idx end_idx in
  let h := total g_h seg in
  obp <- rate (h + total g_bb seg) (total g_pa seg) ;;
  slg <- rate (DetectStreaks.total_bases h (total g_doubles seg)
                                         (total g_triples seg)
                                         (total g_hr seg))
              (total g_ab seg) ;;
  Ok (obp + slg)%float.

(** The value of a game in a signal that was built. *)
Definition game_value (g : Game) : float :=
  match DetectStreaks.game_ops g with
  | Ok v => v
  | Raise _ => 0%float
  end.

(** The database with another content of [season_batting_stats]. *)
Definition with_season_stats (db : DB) (stats : list SeasonStatRow) : DB :=
  {| players := players db;
     game_batting_logs := game_batting_logs db;
     season_batting_stats := stats;
     streaks := streaks db;
     streaks_seq := streaks_seq db;
     streaks_sensitive := streaks_sensitive db;
     sensitive_seq := sensitive_seq db |}.

(** The database with another content of [streaks_sensitive]. *)
Definition with_sensitive (db : DB) (rows : list SensitiveRow) : DB :=
  {| players := players db;
     game_batting_logs := game_batting_logs db;
     season_batting_stats := season_batting_stats db;
     streaks := streaks db;
     streaks_seq := streaks_seq db;
     streaks_sensitive := rows;
     sensitive_seq := sensitive_seq db |}.

(** The keys that AUTOINCREMENT hands out to [n] rows after the key
    [last_key]. *)
Definition next_keys (last_key : Z) (n : nat) : list Z :=
  map (fun k => last_key + Z.of_nat k) (seq 1 n).

(** What a row stored by the primary pass for [db] satisfies. *)
Definition primary_row_ok (db : DB) (r : StreakRow) : Prop :=
  let games := DetectStreaks.get_game_logs db (s_player_id r) (s_season r) in
  In (s_player_id r, s_season r) (DetectStreaks.get_player_seasons db) /\
  (DetectStreaks.MIN_SEGMENT_SIZE * 2 <= List.length games)%nat /\
  (1 <= num_games (s_stats r) <= List.length games)%nat /\
  exists i j, DetectStreaks.compute_segment_stats games i j = Ok (s_stats r).

(** What a row stored by the second pass for [db] satisfies. *)
Definition sensitive_row_ok (np_mean : list float -> float) (db : DB)
           (r : SensitiveRow) : Prop :=
  let games := DetectStreaks.get_game_logs db (x_player_id r) (x_season r) in
  In (x_player_id r, x_season r) (DetectStreaks.single_segment_players db) /\
  (DetectStreaks.MIN_SEGMENT_SIZE * 2 <= List.length games)%nat /\
  (DetectStreaks.MIN_SEGMENT_SIZE <= num_games (x_stats r)
   <= DetectStreaks.SENSITIVE_MAX_SEGMENT)%nat /\
  exists signal,
    DetectStreaks.compute_game_ops games = Ok signal /\
    x_season_ops r = Py.round3 (np_mean signal) /\
    DetectStreaks.label_performance (ops (x_stats r)) (np_mean signal)
    = Ok (x_performance r).

(** What [max] has established after the elements [pre]: the current
    element is one of them, none has a greater key, and every earlier
    one has a key that is not at least the current one's. *)
Definition is_max_of {A} (key : A -> float) (pre : list A)
           (best : nat * A) : Prop :=
  nth_error pre (fst best) = Some (snd best) /\
  (forall x, In x pre -> (key (snd best) <? key x)%float = false) /\
  (forall j x, (j < fst best)%nat -> nth_error pre j = Some x ->
               (key (snd best) <=? key x)%float = false).

(** The same for [min]. *)
Definition is_min_of {A} (key : A -> float) (pre : list A)
           (best : nat * A) : Prop :=
  nth_error pre (fst best) = Some (snd best) /\
  (forall x, In x pre -> (key x <? key (snd best))%float = false) /\
  (forall j x, (j < fst best)%nat -> nth_error pre j = Some x ->
               (key x <=? key (snd best))%float = false).

(** A statement that reads the secondary (sensitive) records. *)
Definition reads_secondary (st : Stmt) : bool :=
  Text.contains "streaks_sensitive" (sql_text st).

(** A statement that reads the game logs: the first step of the live
    recomputation. *)
Definition reads_game_logs (st : Stmt) : bool :=
  Text.contains "game_batting_logs" (sql_text st).

(** The order of the tiers on a log of statements: whenever the game
    logs are read, the secondary records were read before. *)
Fixpoint secondary_before_live (seen_secondary : bool) (log : list Stmt)
  : bool :=
  match log with
  | [] => true
  | st :: rest =>
      (negb (reads_game_logs st) || seen_secondary)
      && secondary_before_live (seen_secondary || reads_secondary st) rest
  end.

End Properties.

(* ================================================================== *)
(** ** Example databases *)

Module Examples.

Import QueryEngine.

Definition mk (d : string) (ab h doubles triples hr bb so pa : Z) : Game :=
  {| g_date := d; g_ab := Some ab; g_h := Some h;
     g_doubles := Some doubles; g_triples := Some triples;
     g_hr := Some hr; g_bb := Some bb; g_so := Some so;
     g_pa := Some pa |}.

(** Forty-two games: two good fortnights around a hitless one. *)
Definition judge_games : list Game :=
  [
    mk "2024-04-01" 4 2 1 0 0 0 1 4;
    mk "2024-04-02" 4 1 0 0 0 1 1 5;
    mk "2024-04-03" 4 2 1 0 0 0 0 4;
    mk "2024-04-04" 4 1 0 0 0 1 1 5;
    mk "2024-04-05" 4 2 1 0 0 0 1 4;
    mk "2024-04-06" 4 1 0 0 0 1 0 5;
    mk "2024-04-07" 4 1 0 0 0 0 1 4;
    mk "2024-04-08" 4 2 1 0 0 0 1 4;
    mk "2024-04-09" 4 1 0 0 0 1 1 5;
    mk "2024-04-10" 4 2 1 0 0 0 0 4;
    mk "2024-04-11" 4 1 0 0 0 1 1 5;
    mk "2024-04-12" 4 2 1 0 0 0 1 4;
    mk "2024-04-13" 4 1 0 0 0 1 0 5;
    mk "2024-04-14" 4 1 0 0 0 0 1 4;
    mk "2024-04-15" 4 0 0 0 0 0 2 4;
    mk "2024-04-16" 4 0 0 0 0 0 2 4;
    mk "2024-04-17" 4 0 0 0 0 0 2 4;
    mk "2024-04-18" 4 0 0 0 0 0 2 4;
    mk "2024-04-19" 4 0 0 0 0 0 2 4;
    mk "2024-04-20" 4 0 0 0 0 0 2 4;
    mk "2024-04-21" 4 0 0 0 0 0 2 4;
    mk "2024-04-22" 4 0 0 0 0 0 2 4;
    mk "2024-04-23" 4 0 0 0 0 0 2 4;
    mk "2024-04-24" 4 0 0 0 0 0 2 4;
    mk "2024-04-25" 4 0 0 0 0 0 2 4;
    mk "2024-04-26" 4 0 0 0 0 0 2 4;
    mk "2024-04-27" 4 0 0 0 0 0 2 4;
    mk "2024-04-28" 4 0 0 0 0 0 2 4;
    mk "2024-04-29" 4 1 0 0 0 1 1 5;
    mk "2024-04-30" 4 2 1 0 0 1 0 5;
    mk "2024-05-01" 4 1 0 0 0 1 1 5;
    mk "2024-05-02" 4 2 1 0 0 0 1 4;
    mk "2024-05-03" 4 1 0 0 0 1 0 5;
    mk "2024-05-04" 4 2 0 0 0 0 1 4;
    mk "2024-05-05" 4 1 0 0 0 1 1 5;
    mk "2024-05-06" 4 1 0 0 0 1 1 5;
    mk "2024-05-07" 4 2 1 0 0 1 0 5;
    mk "2024-05-08" 4 1 0 0 0 1 1 5;
    mk "2024-05-09" 4 2 1 0 0 0 1 4;
    mk "2024-05-10" 4 1 0 0 0 1 0 5;
    mk "2024-05-11" 4 2 0 0 0 0 1 4;
    mk "2024-05-12" 4 1 0 0 0 1 1 5
].

(** Thirty-three games: nine games with a home run each, then
    twenty-four ordinary ones. *)
Definition ohtani_games : list Game :=
  [
    mk "2024-04-01" 4 2 0 0 1 1 0 5;
    mk "2024-04-02" 5 3 1 0 1 0 1 5;
    mk "2024-04-03" 4 2 0 0 1 1 0 5;
    mk "2024-04-04" 5 3 1 0 1 0 1 5;
    mk "2024-04-05" 4 2 0 0 1 1 0 5;
    mk "2024-04-06" 5 3 1 0 1 0 1 5;
    mk "2024-04-07" 4 2 0 0 1 1 0 5;
    mk "2024-04-08" 5 3 1 0 1 0 1 5;
    mk "2024-04-09" 4 2 0 0 1 1 0 5;
    mk "2024-04-10" 4 2 1 0 0 0 1 4;
    mk "2024-04-11" 3 1 0 0 0 1 1 4;
    mk "2024-04-12" 4 2 0 0 0 0 0 4;
    mk "2024-04-13" 4 2 1 0 0 0 1 4;
    mk "2024-04-14" 3 1 0 0 0 1 1 4;
    mk "2024-04-15" 4 2 0 0 0 0 0 4;
    mk "2024-04-16" 4 2 1 0 0 0 1 4;
    mk "2024-04-17" 3 1 0 0 0 1 1 4;
    mk "2024-04-18" 4 2 0 0 0 0 0 4;
    mk "2024-04-19" 4 2 1 0 0 0 1 4;
    mk "2024-04-20" 3 1 0 0 0 1 1 4;
    mk "2024-04-21" 4 2 0 0 0 0 0 4;
    mk "2024-04-22" 4 2 1 0 0 0 1 4;
    mk "2024-04-23" 3 1 0 0 0 1 1 4;
    mk "2024-04-24" 4 2 0 0 0 0 0 4;
    mk "2024-04-25" 4 2 1 0 0 0 1 4;
    mk "2024-04-26" 3 1 0 0 0 1 1 4;
    mk "2024-04-27" 4 2 0 0 0 0 0 4;
    mk "2024-04-28" 4 2 1 0 0 0 1 4;
    mk "2024-04-29" 3 1 0 0 0 1 1 4;
    mk "2024-04-30" 4 2 0 0 0 0 0 4;
    mk "2024-05-01" 4 2 1 0 0 0 1 4;
    mk "2024-05-02" 3 1 0 0 0 1 1 4;
    mk "2024-05-03" 4 2 0 0 0 0 0 4 ].

Definition logs_of (player_id : string) (season : Z) (games : list Game)
  : list LogRow :=
  map (fun g => {| l_player_id := player_id; l_season := season;
                   l_game := g |}) games.

(** The tables as loaded, before any detection pass; the season OPS of
    [season_batting_stats] is the rate of the season totals. *)
Definition judge_raw : DB :=
  {| players := [ {| p_player_id := "15640"; p_name := "Aaron Judge" |} ];
     game_batting_logs := logs_of "15640" 2024 judge_games;
     season_batting_stats :=
       [ {| ss_player_id := "15640"; ss_season := 2024;
            ss_ops := Some 0.602%float |} ];
     streaks := []; streaks_seq := 0;
     streaks_sensitive := []; sensitive_seq := 0 |}.

Definition ohtani_raw : DB :=
  {| players := [ {| p_player_id := "19755"; p_name := "Shohei Ohtani" |} ];
     game_batting_logs := logs_of "19755" 2024 ohtani_games;
     season_batting_stats :=
       [ {| ss_player_id := "19755"; ss_season := 2024;
            ss_ops := Some 1.321%float |} ];
     streaks := []; streaks_seq := 0;
     streaks_sensitive := []; sensitive_seq := 0 |}.

Definition or_else {A} (r : Py.result A) (d : A) : A :=
  match r with
  | Ok a => a
  | Raise _ => d
  end.

(** An arithmetic mean in binary64: the sum in index order, divided by
    the length.  It stands for [np.mean] in the examples. *)
Definition mean_in_order (xs : list float) : float :=
  (Np.fsum xs / Py.nearest_quotient (Z.of_nat (List.length xs)) 1)%float.

(** [judge_raw] after the primary pass, and after both passes. *)
Definition judge_primary : DB :=
  Eval vm_compute in
    or_else (DetectStreaks.detect_all_streaks Ruptures.predict mean_in_order
               judge_raw)
            judge_raw.

Definition judge_db : DB :=
  Eval vm_compute in
    or_else (DetectStreaks.detect_sensitive_streaks Ruptures.predict
               mean_in_order judge_primary)
            judge_primary.

(** [ohtani_raw] after the primary pass. *)
Definition ohtani_primary : DB :=
  Eval vm_compute in
    or_else (DetectStreaks.detect_all_streaks Ruptures.predict mean_in_order
               ohtani_raw)
            ohtani_raw.

(** [str(x)] for a float with at most three decimals. *)
Fixpoint strip_zeros (rev_digits : string) : string :=
  match rev_digits with
  | EmptyString => EmptyString
  | String c rest =>
      match rest with
      | EmptyString => rev_digits
      | _ => if Ascii.eqb c "0"%char then strip_zeros rest else rev_digits
      end
  end.

Fixpoint rev_string (s acc : string) : string :=
  match s with
  | EmptyString => acc
  | String c s' => rev_string s' (String c acc)
  end.

Definition repr_rounded (x : float) : string :=
  match String.index 0 "." (Text.fmt x) with
  | Some i =>
      let whole := String.substring 0 (S i) (Text.fmt x) in
      let frac := String.substring (S i) 3 (Text.fmt x) in
      String.append whole
        (rev_string (strip_zeros (rev_string frac EmptyString))
                    EmptyString)
  | None => Text.fmt x
  end.

Definition COLD_QUESTION : string :=
  "Did Aaron Judge have any cold streaks in 2024?".

Definition COLD_SQL : string :=
  "SELECT s.* FROM streaks s JOIN players p ON s.player_id = p.player_id WHERE p.name LIKE '%Judge%' AND s.season = 2024 AND s.performance = 'cold' ORDER BY s.start_date".

(** A language model that writes [COLD_SQL] for the question and hands
    the streak data back as its narration. *)
Definition cold_llm : LLMService :=
  {| route_query := fun _ _ => Ok (Some "streak_finder");
     generate_sql := fun _ _ => Ok COLD_SQL;
     generate_answer := fun _ _ results _ => Ok results;
     describe_streaks := fun _ streak_data _ => Ok streak_data |}.

(** What SQLite answers to [COLD_SQL]: the rows of [streaks] of the
    players named like Judge, season 2024, labelled cold.  The example
    database answers no other statement. *)
Definition run_cold_sql (db : DB) (sql : string)
  : string + (list string * list row) :=
  if negb (String.eqb sql COLD_SQL) then inl "not an example statement"
  else
  inr (STREAK_COLUMNS,
       map streak_tuple
           (filter
              (fun s =>
                 (s_season s =? 2024)
                 && String.eqb (s_performance s) "cold"
                 && existsb
                      (fun p =>
                         String.eqb (p_player_id p) (s_player_id s)
                         && Text.like_contains "Judge" (p_name p))
                      (players db))
              (streaks db))).

(** A language model that refuses every question. *)
Definition refusing_llm : LLMService :=
  {| route_query := fun _ _ => Ok None;
     generate_sql := fun _ _ => Ok "OFF_TOPIC";
     generate_answer := fun _ _ results _ => Ok results;
     describe_streaks := fun _ streak_data _ => Ok streak_data |}.

(** A row of [streaks] and a candidate segment, for the examples of the
    query engine. *)
Definition season_row (id : Z) (player_id : string) : StreakRow :=
  {| s_id := id; s_player_id := player_id; s_season := 2024;
     s_stats := {| start_date := "2024-04-01"; end_date := "2024-09-29";
                   num_games := 158;
                   batting_avg := 0.322; obp := 0.458; slg := 0.701;
                   ops := 1.159;
                   home_runs := 58; hits := 180; at_bats := 559;
                   walks := 133; strikeouts := 171 |};
     s_performance := "average" |}.

Definition fortnight : Segment :=
  {| seg_start_date := "2024-04-01"; seg_end_date := "2024-04-14";
     seg_num_games := 14;
     seg_avg := 0.375; seg_obp := 0.508; seg_slg := 0.375;
     seg_ops := 0.883;
     seg_hr := 0; seg_hits := 21; seg_ab := 56; seg_bb := 10;
     seg_season_ops := 0.589 |}.

End Examples.


(** Case analysis on the comparisons of sign, exponent and mantissa. *)
Ltac sf_cases :=
  repeat match goal with
         | |- context [(?a ?= ?b)%Z] => destruct (Z.compare_spec a b)
         | H : context [(?a ?= ?b)%Z] |- _ => destruct (Z.compare_spec a b)
         end;
  rewrite ?Pos.compare_cont_spec in *; unfold Pos.switch_Eq in *;
  repeat match goal with
         | |- context [(?a ?= ?b)%positive] => destruct (Pos.compare_spec a b)
         | H : context [(?a ?= ?b)%positive] |- _ =>
             destruct (Pos.compare_spec a b)
         end;
  cbn [CompOpp] in *; subst; try discriminate; try reflexivity; try lia.

(* ================================================================== *)
(** * Properties of the program *)

Import DetectStreaks QueryEngine Properties.

(** ** General facts *)

Lemma mapM_raise {A B} (f : A -> Py.result B) (xs : list A) (e : Py.exn) :
  Py.mapM f xs = Raise e -> exists x, In x xs /\ f x = Raise e.
Proof.
  induction xs as [|x xs IH]; simpl; [discriminate|].
  destruct (f x) eqn:Fx; simpl.
  - destruct (Py.mapM f xs) eqn:Mx; simpl; [discriminate|].
    intro H. injection H as ->.
    destruct (IH eq_refl) as (y & Hy & Fy). exists y. auto.
  - intro H. injection H as ->. exists x. auto.
Qed.

Lemma mapM_ok {A B} (f : A -> Py.result B) (xs : list A) (ys : list B) :
  Py.mapM f xs = Ok ys -> Forall2 (fun x y => f x = Ok y) xs ys.
Proof.
  revert ys. induction xs as [|x xs IH]; simpl; intros ys H.
  - injection H as <-. constructor.
  - destruct (f x) eqn:Fx; simpl in H; [|discriminate].
    destruct (Py.mapM f xs) eqn:Mx; simpl in H; [|discriminate].
    injection H as <-. constructor; auto.
Qed.

Lemma mapM_total {A B} (f : A -> Py.result B) (xs : list A) :
  Forall (fun x => exists y, f x = Ok y) xs ->
  exists ys, Py.mapM f xs = Ok ys.
Proof.
  induction 1 as [|x xs (y & Hy) _ (ys & Hys)]; simpl.
  - eexists; reflexivity.
  - rewrite Hy, Hys. simpl. eexists; reflexivity.
Qed.

Lemma truediv_no_zero_division (a b : Z) :
  b <> 0 -> Py.truediv a b <> Raise ZeroDivisionError.
Proof.
  intro H. unfold Py.truediv. destruct (Z.eqb_spec b 0); [congruence|].
  destruct (is_infinity (Py.nearest_quotient a b)); discriminate.
Qed.

Lemma and_positive_false (x : option Z) :
  Py.and_positive x = false <->
  x = None \/ exists v, x = Some v /\ v <= 0.
Proof.
  unfold Py.and_positive. destruct x as [v|].
  - split.
    + intro H. right. exists v. split; [reflexivity|].
      destruct (Z.eqb_spec v 0); simpl in H; [lia|].
      apply Z.ltb_ge in H. exact H.
    + intros [H|(w & H & L)]; [discriminate|]. injection H as ->.
      destruct (Z.eqb_spec w 0); simpl; [reflexivity|].
      apply Z.ltb_ge. exact L.
  - split; auto.
Qed.

Lemma and_positive_true (x : option Z) :
  Py.and_positive x = true -> exists v, x = Some v /\ 0 < v.
Proof.
  unfold Py.and_positive. destruct x as [v|]; [|discriminate].
  intro H. apply andb_prop in H as [_ H]. apply Z.ltb_lt in H. eauto.
Qed.

(** ** Order of binary64 numbers *)

Module FloatOrder.

Lemma SFcompare_antisym (x y : spec_float) :
  SFcompare y x = option_map CompOpp (SFcompare x y).
Proof.
  destruct x as [sx|sx| |sx mx ex], y as [sy|sy| |sy my ey];
    try reflexivity;
    try (destruct sx; reflexivity);
    try (destruct sy; reflexivity);
    try (destruct sx, sy; reflexivity).
  destruct sx, sy; try reflexivity; cbn [SFcompare option_map];
    rewrite (Z.compare_antisym ex ey);
    destruct (ex ?= ey); cbn [CompOpp]; try reflexivity;
    f_equal; rewrite <- (Pos.compare_cont_antisym _ _ Eq);
    cbn [CompOpp]; try reflexivity.
Qed.

Lemma SFcompare_none (x y : spec_float) :
  SFcompare x y = None -> x = S754_nan \/ y = S754_nan.
Proof.
  destruct x, y; cbn [SFcompare]; try discriminate; auto.
Qed.

Lemma ltb_leb_false (x y : float) :
  (x <? y)%float = true -> (y <=? x)%float = false.
Proof.
  rewrite ltb_spec, leb_spec. unfold SFltb, SFleb.
  rewrite (SFcompare_antisym (Prim2SF x) (Prim2SF y)).
  destruct (SFcompare (Prim2SF x) (Prim2SF y)) as [[ | | ]|];
    cbn [option_map CompOpp]; congruence.
Qed.

Lemma is_nan_spec (x : float) :
  is_nan x = true <-> Prim2SF x = S754_nan.
Proof.
  unfold is_nan. rewrite eqb_spec. unfold SFeqb.
  destruct (Prim2SF x) as [s|s| |s m e]; cbn [SFcompare].
  - split; discriminate.
  - destruct s; split; discriminate.
  - split; reflexivity.
  - rewrite Z.compare_refl, Pos.compare_cont_refl.
    destruct s; split; discriminate.
Qed.

Lemma leb_false_cases (x y : float) :
  (x <=? y)%float = false ->
  (y <? x)%float = true \/ is_nan x = true \/ is_nan y = true.
Proof.
  rewrite ltb_spec, leb_spec, !is_nan_spec. unfold SFltb, SFleb.
  rewrite (SFcompare_antisym (Prim2SF x) (Prim2SF y)).
  destruct (SFcompare (Prim2SF x) (Prim2SF y)) as [[ | | ]|] eqn:E;
    cbn [option_map CompOpp]; try discriminate; auto.
  intros _. right. now apply SFcompare_none.
Qed.

Lemma nan_leb_l (x y : float) : is_nan x = true -> (x <=? y)%float = false.
Proof.
  rewrite is_nan_spec, leb_spec. intros ->. reflexivity.
Qed.

Lemma nan_leb_r (x y : float) : is_nan y = true -> (x <=? y)%float = false.
Proof.
  rewrite is_nan_spec, leb_spec. intros ->. unfold SFleb.
  destruct (Prim2SF x); reflexivity.
Qed.

(** No float is both at least 1.20 and at most 0.80. *)
Lemma hot_not_cold (r : float) :
  (1.20 <=? r)%float = true -> (r <=? 0.80)%float = false.
Proof.
  rewrite !leb_spec.
  replace (Prim2SF 1.20) with (S754_finite false 5404319552844595 (-52))
    by (vm_compute; reflexivity).
  replace (Prim2SF 0.80) with (S754_finite false 7205759403792794 (-53))
    by (vm_compute; reflexivity).
  unfold SFleb. destruct (Prim2SF r) as [s|s| |s m e]; cbn [SFcompare].
  - discriminate.
  - destruct s; [discriminate|reflexivity].
  - reflexivity.
  - destruct s; [discriminate|].
    destruct (Z.compare_spec (-52) e) as [E|E|E];
      destruct (Z.compare_spec e (-53)) as [F|F|F];
      try lia; try discriminate; reflexivity.
Qed.

End FloatOrder.

(* ------------------------------------------------------------------ *)
(** ** The Performance Classifier *)

Lemma label_performance_nonzero (s b : float) :
  (b =? 0)%float = false ->
  label_performance s b =
  if (1.20 <=? s / b)%float then Ok "hot"
  else if (s / b <=? 0.80)%float then Ok "cold"
  else Ok "average".
Proof.
  intro Hb. unfold label_performance, Py.fdiv, Py.bind. now rewrite Hb.
Qed.

(** C5.  With a baseline equal to zero the label is "average"; otherwise,
    for ratio = segment OPS / baseline (the binary64 quotient), the label
    is "hot" exactly when ratio >= 1.20 and "cold" exactly when
    ratio <= 0.80, both bounds included, 1.20 and 0.80 being the floats of
    the source; it is "average" exactly when the ratio lies strictly
    between the two or is not a number. *)
Theorem label_performance_bands (s b : float) :
  ((b =? 0)%float = true -> label_performance s b = Ok "average") /\
  ((b =? 0)%float = false ->
   (label_performance s b = Ok "hot" <-> (1.20 <=? s / b)%float = true) /\
   (label_performance s b = Ok "cold" <-> (s / b <=? 0.80)%float = true) /\
   (label_performance s b = Ok "average" <->
    ((0.80 <? s / b)%float = true /\ (s / b <? 1.20)%float = true)
    \/ is_nan (s / b)%float = true)).
Proof.
  split.
  - intro Hb. unfold label_performance. now rewrite Hb.
  - intro Hb. rewrite (label_performance_nonzero s b Hb).
    set (r := (s / b)%float).
    destruct (1.20 <=? r)%float eqn:Hot.
    + pose proof (FloatOrder.hot_not_cold r Hot) as NotCold.
      repeat split; try discriminate; auto.
      * intro C. congruence.
      * intros [[_ Lt]|N].
        -- apply FloatOrder.ltb_leb_false in Lt. congruence.
        -- rewrite (FloatOrder.nan_leb_r _ _ N) in Hot. discriminate.
    + destruct (r <=? 0.80)%float eqn:Cold.
      * repeat split; try discriminate; auto.
        intros [[Gt _]|N].
        -- apply FloatOrder.ltb_leb_false in Gt. congruence.
        -- rewrite (FloatOrder.nan_leb_l _ _ N) in Cold. discriminate.
      * repeat split; try discriminate; auto.
        intros _.
        destruct (FloatOrder.leb_false_cases _ _ Hot) as [L|[N|N]];
          [|vm_compute in N; discriminate|right; exact N].
        destruct (FloatOrder.leb_false_cases _ _ Cold) as [G|[N|N]];
          [|right; exact N|vm_compute in N; discriminate].
        left. split; assumption.
Qed.

(** The band edges on concrete floats: 0.816 / 0.68 and 0.56 / 0.7 fall
    just inside the band in binary64, and 1.2 / 1.0 is on its edge. *)
Example label_performance_edges :
  label_performance 0.816 0.68 = Ok "average" /\
  label_performance 0.56 0.7 = Ok "average" /\
  label_performance 1.2 1.0 = Ok "hot" /\
  label_performance 0.8 1.0 = Ok "cold" /\
  label_performance 0.5 0 = Ok "average".
Proof. vm_compute. repeat split. Qed.

(* ------------------------------------------------------------------ *)
(** ** The Segmentation Engine on short signals *)

(** C6.  A signal shorter than twice the minimum segment length is not
    segmented: the result is the single breakpoint [len(signal)], and no
    exception is raised, whatever the change-point library would do. *)
Theorem detect_change_points_short
        (pelt_predict : list float -> nat -> Q -> Py.result (list nat))
        (signal : list float) (min_size : nat) (penalty : Q) :
  (List.length signal < 2 * min_size)%nat ->
  detect_change_points pelt_predict signal min_size penalty
  = Ok [List.length signal].
Proof.
  intro H. unfold detect_change_points.
  replace (List.length signal <? min_size * 2)%nat with true; [reflexivity|].
  symmetry. apply Nat.ltb_lt. lia.
Qed.

Lemma detect_change_points_short_witness :
  detect_change_points Ruptures.predict [1; 0; 2; 0; 0; 1]%float
                       MIN_SEGMENT_SIZE PENALTY
  = Ok [6%nat].
Proof.
  apply (detect_change_points_short Ruptures.predict).
  unfold MIN_SEGMENT_SIZE. simpl. lia.
Defined.

(* ------------------------------------------------------------------ *)
(** ** Rate computations and zero denominators *)

Lemma rate_no_zero_division (num den : Z) :
  rate num den <> Raise ZeroDivisionError.
Proof.
  unfold rate. destruct (Z.ltb_spec 0 den); [|discriminate].
  apply truediv_no_zero_division. lia.
Qed.

Lemma rate_zero (num den : Z) : den <= 0 -> rate num den = Ok 0%float.
Proof.
  intro H. unfold rate. destruct (Z.ltb_spec 0 den); [lia|reflexivity].
Qed.

(** [compute_segment_stats] in terms of the guarded rates. *)
Lemma compute_segment_stats_eq (games : list Game) (i j : nat) :
  compute_segment_stats games i j =
  let seg := Py.slice games i j in
  let ab := total g_ab seg in
  let h := total g_h seg in
  let bb := total g_bb seg in
  let pa := total g_pa seg in
  let tb := total_bases h (total g_doubles seg) (total g_triples seg)
                        (total g_hr seg) in
  avg <- rate h ab ;;
  obp <- rate (h + bb) pa ;;
  slg <- rate tb ab ;;
  match seg, rev seg with
  | first :: _, last :: _ =>
      Ok {| start_date := g_date first;
            end_date := g_date last;
            num_games := List.length seg;
            batting_avg := Py.round3 avg;
            obp := Py.round3 obp;
            slg := Py.round3 slg;
            ops := Py.round3 (obp + slg)%float;
            home_runs := total g_hr seg;
            hits := h;
            at_bats := ab;
            walks := bb;
            strikeouts := total g_so seg |}
  | _, _ => Raise IndexError
  end.
Proof. reflexivity. Qed.

(** [_compute_segment] in terms of the guarded rates. *)
Lemma _compute_segment_eq (games : list Game) (i j : nat)
      (season_ops : float) :
  _compute_segment games i j season_ops =
  let seg := Py.slice games i j in
  let ab := total g_ab seg in
  let h := total g_h seg in
  let bb := total g_bb seg in
  let pa := total g_pa seg in
  let tb := total_bases h (total g_doubles seg) (total g_triples seg)
                        (total g_hr seg) in
  avg <- (q <- rate h ab ;; Ok (Py.round3 q)) ;;
  obp <- (q <- rate (h + bb) pa ;; Ok (Py.round3 q)) ;;
  slg <- (q <- rate tb ab ;; Ok (Py.round3 q)) ;;
  match seg, rev seg with
  | first :: _, last :: _ =>
      Ok {| seg_start_date := g_date first;
            seg_end_date := g_date last;
            seg_num_games := List.length seg;
            seg_avg := avg;
            seg_obp := obp;
            seg_slg := slg;
            seg_ops := Py.round3 (obp + slg)%float;
            seg_hr := total g_hr seg;
            seg_hits := h;
            seg_ab := ab;
            seg_bb := bb;
            seg_season_ops := season_ops |}
  | _, _ => Raise IndexError
  end.
Proof.
  unfold _compute_segment, rate, total. cbv zeta.
  repeat match goal with
         | |- context [if ?c then _ else _] => destruct c
         end; reflexivity.
Qed.

Lemma game_ops_zero (g : Game) :
  Py.and_positive (g_ab g) = false \/ Py.and_positive (g_pa g) = false ->
  game_ops g = Ok 0%float.
Proof.
  intros [H|H]; unfold game_ops; rewrite H;
    [|rewrite andb_false_r]; reflexivity.
Qed.

Lemma game_ops_no_zero_division (g : Game) :
  game_ops g <> Raise ZeroDivisionError.
Proof.
  unfold game_ops.
  destruct (Py.and_positive (g_ab g)) eqn:Hab; [|discriminate].
  destruct (Py.and_positive (g_pa g)) eqn:Hpa; [|discriminate].
  apply and_positive_true in Hab as (a & -> & Ha).
  apply and_positive_true in Hpa as (p & -> & Hp).
  destruct (g_h g) as [h|], (g_doubles g) as [d|], (g_triples g) as [t|],
           (g_hr g) as [hr|];
    cbn [andb Py.int_operand Py.bind]; try discriminate.
  pose proof (truediv_no_zero_division (total_bases h d t hr) a
                                       ltac:(lia)) as N1.
  destruct (Py.truediv (total_bases h d t hr) a) as [slg|e1];
    cbn [Py.bind]; [|congruence].
  destruct (g_bb g) as [bb|]; cbn [Py.int_operand Py.bind];
    [|discriminate].
  pose proof (truediv_no_zero_division (h + bb) p ltac:(lia)) as N2.
  destruct (Py.truediv (h + bb) p) as [obp|e2]; cbn [Py.bind];
    [discriminate|congruence].
Qed.

(** C8.  A game whose at-bats or plate appearances are missing or not
    positive has the per-game value 0, and neither the signal builder nor
    the two segment aggregators nor the classifier raises a division by
    zero: with a denominator that is not positive the rate is 0. *)
Theorem zero_denominator_yields_zero :
  (forall g,
      (g_ab g = None \/ (exists a, g_ab g = Some a /\ a <= 0)
       \/ g_pa g = None \/ (exists p, g_pa g = Some p /\ p <= 0)) ->
      game_ops g = Ok 0%float) /\
  (forall games, compute_game_ops games <> Raise ZeroDivisionError) /\
  (forall games i j,
      compute_segment_stats games i j <> Raise ZeroDivisionError) /\
  (forall games i j st,
      compute_segment_stats games i j = Ok st ->
      (at_bats st <= 0 -> batting_avg st = 0%float /\ slg st = 0%float) /\
      (total g_pa (Py.slice games i j) <= 0 -> obp st = 0%float)) /\
  (forall games i j season_ops,
      _compute_segment games i j season_ops <> Raise ZeroDivisionError) /\
  (forall games i j season_ops sg,
      _compute_segment games i j season_ops = Ok sg ->
      (seg_ab sg <= 0 -> seg_avg sg = 0%float /\ seg_slg sg = 0%float) /\
      (total g_pa (Py.slice games i j) <= 0 -> seg_obp sg = 0%float)) /\
  (forall s b, label_performance s b <> Raise ZeroDivisionError).
Proof.
  repeat apply conj.
  - intros g H. apply game_ops_zero.
    destruct H as [H|[H|[H|H]]].
    + left. apply and_positive_false. auto.
    + left. apply and_positive_false. auto.
    + right. apply and_positive_false. auto.
    + right. apply and_positive_false. auto.
  - intros games H. apply mapM_raise in H as (g & _ & H).
    exact (game_ops_no_zero_division g H).
  - intros games i j. rewrite compute_segment_stats_eq. cbv zeta.
    set (seg := Py.slice games i j).
    pose proof (rate_no_zero_division (total g_h seg) (total g_ab seg)).
    destruct (rate (total g_h seg) (total g_ab seg)); [|simpl; congruence].
    pose proof (rate_no_zero_division (total g_h seg + total g_bb seg)
                                      (total g_pa seg)).
    destruct (rate (total g_h seg + total g_bb seg) (total g_pa seg));
      [|simpl; congruence].
    match goal with
    | |- context [rate ?n ?d] =>
        pose proof (rate_no_zero_division n d); destruct (rate n d)
    end; [|simpl; congruence].
    cbn [Py.bind].
    destruct seg as [|first seg']; [discriminate|].
    destruct (rev (first :: seg')); discriminate.
  - intros games i j st. rewrite compute_segment_stats_eq. cbv zeta.
    set (seg := Py.slice games i j).
    intro H. split.
    + intro L.
      destruct (rate (total g_h seg) (total g_ab seg)) as [qa|] eqn:Eavg;
        [|discriminate].
      destruct (rate (total g_h seg + total g_bb seg) (total g_pa seg))
        as [qo|]; [|discriminate].
      cbn [Py.bind] in H.
      match type of H with
      | context [rate ?n ?d] => destruct (rate n d) as [qs|] eqn:Eslg
      end; [|discriminate].
      cbn [Py.bind] in H.
      destruct seg as [|first seg']; [discriminate|].
      destruct (rev (first :: seg')); [discriminate|].
      injection H as <-. cbn [at_bats batting_avg slg] in *.
      rewrite rate_zero in Eavg, Eslg by exact L.
      injection Eavg as <-. injection Eslg as <-. split; reflexivity.
    + intro L. rewrite (rate_zero _ _ L) in H.
      destruct (rate (total g_h seg) (total g_ab seg)) as [qa|];
        [|discriminate].
      cbn [Py.bind] in H.
      match type of H with
      | context [rate ?n ?d] => destruct (rate n d) as [qs|]
      end; [|discriminate].
      cbn [Py.bind] in H.
      destruct seg as [|first seg']; [discriminate|].
      destruct (rev (first :: seg')); [discriminate|].
      injection H as <-. reflexivity.
  - intros games i j season_ops. rewrite _compute_segment_eq. cbv zeta.
    set (seg := Py.slice games i j).
    pose proof (rate_no_zero_division (total g_h seg) (total g_ab seg)).
    destruct (rate (total g_h seg) (total g_ab seg)); [|simpl; congruence].
    pose proof (rate_no_zero_division (total g_h seg + total g_bb seg)
                                      (total g_pa seg)).
    destruct (rate (total g_h seg + total g_bb seg) (total g_pa seg));
      [|simpl; congruence].
    match goal with
    | |- context [rate ?n ?d] =>
        pose proof (rate_no_zero_division n d); destruct (rate n d)
    end; [|simpl; congruence].
    cbn [Py.bind].
    destruct seg as [|first seg']; [discriminate|].
    destruct (rev (first :: seg')); discriminate.
  - intros games i j season_ops sg. rewrite _compute_segment_eq. cbv zeta.
    set (seg := Py.slice games i j).
    intro H. split.
    + intro L.
      destruct (rate (total g_h seg) (total g_ab seg)) as [qa|] eqn:Eavg;
        [|discriminate].
      destruct (rate (total g_h seg + total g_bb seg) (total g_pa seg))
        as [qo|]; [|discriminate].
      cbn [Py.bind] in H.
      match type of H with
      | context [rate ?n ?d] => destruct (rate n d) as [qs|] eqn:Eslg
      end; [|discriminate].
      cbn [Py.bind] in H.
      destruct seg as [|first seg']; [discriminate|].
      destruct (rev (first :: seg')); [discriminate|].
      injection H as <-. cbn [seg_ab seg_avg seg_slg] in *.
      rewrite rate_zero in Eavg, Eslg by exact L.
      injection Eavg as <-. injection Eslg as <-. split; reflexivity.
    + intro L. rewrite (rate_zero _ _ L) in H.
      destruct (rate (total g_h seg) (total g_ab seg)) as [qa|];
        [|discriminate].
      cbn [Py.bind] in H.
      match type of H with
      | context [rate ?n ?d] => destruct (rate n d) as [qs|]
      end; [|discriminate].
      cbn [Py.bind] in H.
      destruct seg as [|first seg']; [discriminate|].
      destruct (rev (first :: seg')); [discriminate|].
      injection H as <-. reflexivity.
  - intros s b. unfold label_performance, Py.fdiv, Py.bind.
    destruct (b =? 0)%float; [discriminate|].
    destruct (1.20 <=? s / b)%float; [discriminate|].
    destruct (s / b <=? 0.80)%float; discriminate.
Qed.
(* ------------------------------------------------------------------ *)
(** ** The conversation history *)

Lemma _add_to_history_length (hist : history) (q a : string) :
  (List.length (_add_to_history hist q a) <= MAX_HISTORY)%nat.
Proof.
  unfold _add_to_history.
  destruct (Nat.ltb_spec MAX_HISTORY (List.length (hist ++ [(q, a)]))).
  - rewrite length_skipn. unfold MAX_HISTORY in *. lia.
  - assumption.
Qed.

Lemma _add_to_history_suffix (hist : history) (q a : string) :
  exists dropped,
    hist ++ [(q, a)] = dropped ++ _add_to_history hist q a /\
    List.length dropped = (List.length hist + 1 - MAX_HISTORY)%nat.
Proof.
  unfold _add_to_history.
  destruct (Nat.ltb_spec MAX_HISTORY (List.length (hist ++ [(q, a)])))
    as [L|L]; rewrite length_app in L; simpl in L.
  - exists (firstn (List.length (hist ++ [(q, a)]) - MAX_HISTORY)
                   (hist ++ [(q, a)])).
    split; [now rewrite firstn_skipn|].
    rewrite length_firstn, length_app. simpl. lia.
  - exists []. split; [reflexivity|]. simpl. lia.
Qed.

Section History.

Variable llm : LLMService.
Variable pelt_predict : list float -> nat -> Q -> Py.result (list nat).
Variable np_mean : list float -> float.
Variable sqlite_run : DB -> string -> string + (list string * list row).
Variable repr_float : float -> string.
Variable db : DB.

Let ask' := ask llm pelt_predict np_mean sqlite_run repr_float db.

Lemma ask_history (hist : history) (q : string) :
  snd (ask' hist q) =
  match fst (fst (ask' hist q)) with
  | Ok answer => _add_to_history hist q answer
  | Raise _ => hist
  end.
Proof.
  unfold ask', ask.
  match goal with
  | |- context [match fst ?m with _ => _ end] => destruct (fst m) eqn:E
  end; cbn [fst snd]; rewrite E; reflexivity.
Qed.

Lemma ask_all_bounded (questions : list string) :
  forall hist,
    (List.length hist <= MAX_HISTORY)%nat ->
    (List.length
       (ask_all llm pelt_predict np_mean sqlite_run repr_float db hist
                questions)
     <= MAX_HISTORY)%nat.
Proof.
  induction questions as [|q rest IH]; intros hist H; simpl; [exact H|].
  apply IH. fold (ask' hist q). rewrite ask_history.
  destruct (fst (fst (ask' hist q))); [|exact H].
  apply _add_to_history_length.
Qed.

End History.

(** C10.  In a session that starts with the empty history, the history
    never holds more than [MAX_HISTORY] = 5 exchanges.  An answered
    question appends exactly its own exchange at the end and then drops
    the oldest entries beyond five; a question whose handling raises leaves
    the history as it was. *)
Theorem ask_history_bounded
        (llm : LLMService)
        (pelt_predict : list float -> nat -> Q -> Py.result (list nat))
        (np_mean : list float -> float)
        (sqlite_run : DB -> string -> string + (list string * list row))
        (repr_float : float -> string) (db : DB) :
  MAX_HISTORY = 5%nat /\
  (forall questions,
      (List.length
         (ask_all llm pelt_predict np_mean sqlite_run repr_float db []
                  questions)
       <= MAX_HISTORY)%nat) /\
  (forall hist question,
      let r := ask llm pelt_predict np_mean sqlite_run repr_float db hist
                   question in
      match fst (fst r) with
      | Ok answer =>
          (List.length (snd r) <= MAX_HISTORY)%nat /\
          exists dropped,
            hist ++ [(question, answer)] = dropped ++ snd r /\
            List.length dropped
            = (List.length hist + 1 - MAX_HISTORY)%nat
      | Raise _ => snd r = hist
      end).
Proof.
  split; [reflexivity|]. split.
  - intro questions. apply ask_all_bounded. simpl. lia.
  - intros hist question r. subst r.
    rewrite (ask_history llm pelt_predict np_mean sqlite_run repr_float db).
    destruct (fst (fst (ask llm pelt_predict np_mean sqlite_run repr_float
                            db hist question))) as [answer|e].
    + split; [apply _add_to_history_length|].
      apply _add_to_history_suffix.
    + reflexivity.
Qed.

(* ------------------------------------------------------------------ *)
(** ** The breakpoints of the Segmentation Engine *)

Lemma last_cons {A} (b : A) (rest : list A) (d : A) :
  last (b :: rest) d = last rest b.
Proof.
  revert b d. induction rest as [|c rest IH]; intros b d; [reflexivity|].
  change (last (b :: c :: rest) d) with (last (c :: rest) d).
  now rewrite (IH c d), (IH c b).
Qed.

Lemma increasing_from_last (bks : list nat) :
  forall lo, increasing_from lo bks -> (lo <= last bks lo)%nat.
Proof.
  induction bks as [|b rest IH]; intros lo H; [simpl; lia|].
  destruct H as [L H]. rewrite last_cons. specialize (IH b H). lia.
Qed.

Lemma increasing_from_app (bks : list nat) (t : nat) :
  forall lo,
    increasing_from lo bks -> (last bks lo < t)%nat ->
    increasing_from lo (bks ++ [t]) /\ last (bks ++ [t]) lo = t.
Proof.
  induction bks as [|b rest IH]; intros lo H L.
  - simpl in *. auto.
  - destruct H as [Lb H]. rewrite last_cons in L.
    destruct (IH b H L) as [I E].
    split; [split; assumption|].
    change ((b :: rest) ++ [t]) with (b :: (rest ++ [t])).
    rewrite last_cons. exact E.
Qed.

Lemma increasing_from_sorted (bks : list nat) :
  forall lo,
    increasing_from lo bks ->
    StronglySorted lt bks /\ Forall (fun b => lo < b)%nat bks.
Proof.
  induction bks as [|b rest IH]; intros lo H.
  - split; constructor.
  - destruct H as [L H]. destruct (IH b H) as [S F].
    assert (F' : Forall (fun c => lo < c)%nat rest).
    { eapply Forall_impl; [|exact F]. simpl. intros. lia. }
    split; constructor; assumption.
Qed.

Lemma covered_cons (r : nat * nat) (ranges : list (nat * nat)) :
  covered (r :: ranges) = seq (fst r) (snd r - fst r) ++ covered ranges.
Proof. reflexivity. Qed.

(** Increasing breakpoints that end at [n] cut [lo, n) into consecutive
    ranges: every index once, in order. *)
Lemma segment_ranges_cover (n : nat) (bks : list nat) :
  forall lo,
    increasing_from lo bks -> last bks lo = n ->
    covered (segment_ranges n bks lo) = seq lo (n - lo).
Proof.
  induction bks as [|b rest IH]; intros lo H E.
  - simpl in E. subst n. rewrite Nat.sub_diag. reflexivity.
  - destruct H as [L H]. rewrite last_cons in E.
    pose proof (increasing_from_last rest b H) as Lb. rewrite E in Lb.
    cbn [segment_ranges].
    destruct (Nat.ltb_spec n b) as [C|_]; [lia|].
    rewrite covered_cons, (IH b H E). cbn [fst snd].
    replace (n - lo)%nat with ((b - lo) + (n - b))%nat by lia.
    rewrite seq_app. repeat f_equal. lia.
Qed.

(** The "Build segments" loop of [detect_all_streaks] aggregates exactly
    the ranges of [segment_ranges], in order. *)
Lemma build_segments_ranges (player_id : string) (season : Z)
      (games : list Game) (season_ops : float) (bks : list nat) :
  forall start_idx tbl tbl',
    build_segments player_id season games season_ops bks start_idx tbl
    = Ok tbl' ->
    exists stats,
      Forall2 (fun r st =>
                 compute_segment_stats games (fst r) (snd r) = Ok st)
              (segment_ranges (List.length games) bks start_idx) stats /\
      map s_stats (fst tbl') = map s_stats (fst tbl) ++ stats.
Proof.
  induction bks as [|b rest IH]; intros start_idx tbl tbl' H.
  - injection H as <-. exists []. split; [constructor|].
    now rewrite app_nil_r.
  - cbn [build_segments segment_ranges] in *.
    set (e := if (List.length games <? b)%nat then List.length games
              else b) in *.
    destruct (compute_segment_stats games start_idx e) as [st|] eqn:Est;
      [|discriminate].
    cbn [Py.bind] in H.
    destruct (label_performance (ops st) season_ops) as [perf|]
      eqn:Ep; [|discriminate].
    cbn [Py.bind] in H.
    destruct (IH _ _ _ H) as (stats & F & M).
    exists (st :: stats). split; [constructor; assumption|].
    rewrite M. unfold insert_streak. cbn [fst].
    rewrite map_app, <- app_assoc. reflexivity.
Qed.

Module PeltFacts.

Import Ruptures.

Definition entry_ok (e : entry) : Prop :=
  increasing_from 0 (snd (snd e)) /\ last (snd (snd e)) 0%nat = fst e.

Lemma argmin_in (cands : list (Q * list nat)) :
  forall best, In (argmin best cands) (best :: cands).
Proof.
  induction cands as [|c cs IH]; intro best; [left; reflexivity|].
  cbn [argmin]. destruct (Qle_bool (fst best) (fst c)).
  - destruct (IH best) as [H|H]; [left|right; right]; assumption.
  - right. apply IH.
Qed.

Lemma extend_ok (x : list Z) (pen : Q) (m t : nat) (e : entry) :
  (1 <= m)%nat -> (fst e + m <= t)%nat -> entry_ok e ->
  entry_ok (t, extend x pen t e).
Proof.
  intros Hm Ht [I L]. destruct e as [s [c bks]]. cbn [fst snd] in *.
  unfold entry_ok, extend. cbn [fst snd].
  apply increasing_from_app; [assumption|lia].
Qed.

Lemma step_spec (x : list Z) (m : nat) (pen : Q) (table : list entry)
      (t : nat) :
  (1 <= m)%nat -> Forall entry_ok table ->
  Forall entry_ok (step x m pen table t) /\
  incl table (step x m pen table t) /\
  ((exists e, In e table /\ (fst e + m <= t)%nat) ->
   exists r, step x m pen table t = table ++ [(t, r)]).
Proof.
  intros Hm F. unfold step.
  set (adm := filter (fun e => (fst e + m <=? t)%nat) table).
  assert (Fadm : Forall (fun c => entry_ok (t, c))
                        (map (extend x pen t) adm)).
  { apply Forall_forall. intros c Hc. apply in_map_iff in Hc.
    destruct Hc as (e & <- & He). apply filter_In in He as [He Ht].
    apply Nat.leb_le in Ht. apply (extend_ok x pen m); auto.
    rewrite Forall_forall in F. auto. }
  destruct (map (extend x pen t) adm) as [|c cs] eqn:Em.
  - split; [assumption|]. split; [apply incl_refl|].
    intros (e & He & Ht). exfalso.
    assert (In (extend x pen t e) (map (extend x pen t) adm)).
    { apply in_map. apply filter_In. split; [assumption|].
      now apply Nat.leb_le. }
    rewrite Em in H. contradiction.
  - split; [|split].
    + apply Forall_app. split; [assumption|]. constructor; [|constructor].
      rewrite Forall_forall in Fadm. apply Fadm. apply argmin_in.
    + apply incl_appl, incl_refl.
    + intros _. eexists. reflexivity.
Qed.

Lemma fold_step_spec (x : list Z) (m : nat) (pen : Q) (ts : list nat) :
  (1 <= m)%nat ->
  forall table,
    Forall entry_ok table ->
    Forall entry_ok (fold_left (step x m pen) ts table) /\
    incl table (fold_left (step x m pen) ts table).
Proof.
  intro Hm. induction ts as [|t ts IH]; intros table F.
  - split; [assumption|apply incl_refl].
  - cbn [fold_left].
    destruct (step_spec x m pen table t Hm F) as (F' & I' & _).
    destruct (IH _ F') as (F'' & I'').
    split; [assumption|]. eapply incl_tran; eassumption.
Qed.

(** On a signal of at least [max min_size 1] points the model of the
    library returns breakpoints that increase strictly from above 0 and
    end at the signal length. *)
Lemma predict_ok (signal : list float) (min_size : nat) (pen0 : Q) :
  (Nat.max min_size 1 <= List.length signal)%nat ->
  exists bks,
    predict signal min_size pen0 = Ok bks /\
    increasing_from 0 bks /\ last bks 0%nat = List.length signal.
Proof.
  intro Hn. unfold predict. rewrite length_map.
  set (x := map (scaled (common_scale signal)) signal).
  set (pen := (pen0 * inject_Z (2 ^ (2 * common_scale signal)))%Q).
  set (m := Nat.max min_size 1) in *.
  set (n := List.length signal) in *.
  assert (Hm : (1 <= m)%nat) by (subst m; lia).
  destruct (Nat.ltb_spec n m) as [C|_]; [lia|].
  replace (n + 1 - m)%nat with (S (n - m)) by lia.
  rewrite seq_S, fold_left_app. cbn [fold_left].
  replace (m + (n - m))%nat with n by lia.
  set (init := [(0%nat, (0%Q, @nil nat))]).
  assert (F0 : Forall entry_ok init).
  { constructor; [|constructor]. split; simpl; auto. }
  destruct (fold_step_spec x m pen (seq m (n - m)) Hm init F0)
    as (F & I).
  set (T := fold_left (step x m pen) (seq m (n - m)) init) in *.
  destruct (step_spec x m pen T n Hm F) as (F' & _ & Ex).
  destruct Ex as (r & Er).
  { exists (0%nat, (0%Q, [])). split; [|simpl; lia].
    apply I. left. reflexivity. }
  destruct (find (fun e => (fst e =? n)%nat) (step x m pen T n))
    as [[k [c bks]]|] eqn:Ef.
  - apply find_some in Ef as [Hin Hk]. cbn [fst] in Hk.
    apply Nat.eqb_eq in Hk. subst k.
    rewrite Forall_forall in F'. destruct (F' _ Hin) as [Inc L].
    exists bks. auto.
  - exfalso. pose proof (find_none _ _ Ef (n, r)) as Hn'.
    cbn [fst] in Hn'. rewrite Nat.eqb_refl in Hn'.
    assert (In (n, r) (step x m pen T n)).
    { rewrite Er. apply in_or_app. right. left. reflexivity. }
    specialize (Hn' H). discriminate.
Qed.

End PeltFacts.

Lemma convolve_same_box_length (a : list float) (w : nat) :
  a <> [] -> (0 < w)%nat ->
  exists smoothed,
    Np.convolve_same_box a w = Ok smoothed /\
    List.length smoothed = Nat.max (List.length a) w.
Proof.
  intros Ha Hw. unfold Np.convolve_same_box.
  destruct a as [|v a']; [contradiction|].
  destruct w as [|w']; [lia|]. cbn [List.length Nat.eqb orb].
  eexists. split; [reflexivity|].
  now rewrite length_map, length_seq.
Qed.

(** C7, as the spec states it, fails on the empty signal: the degenerate case
    answers with the breakpoint 0, which is not a positive index. *)
Lemma breakpoints_of_empty_signal :
  detect_change_points Ruptures.predict [] MIN_SEGMENT_SIZE PENALTY
  = Ok [0%nat] /\
  ~ Forall (fun b => 0 < b)%nat [0%nat].
Proof.
  split; [reflexivity|].
  intro H. inversion H; subst. lia.
Qed.

(** With a minimum segment length below 3 a signal shorter than the
    smoothing window is segmented after [np.convolve] has padded it to the
    window length, and the last breakpoint is that length. *)
Example breakpoints_of_padded_signal :
  detect_change_points Ruptures.predict [1; 1]%float 1 PENALTY = Ok [5%nat].
Proof. vm_compute. reflexivity. Qed.

(** C7 (amended).  For a non-empty signal that is not shorter than the
    smoothing window when it is long enough to be segmented (always so at
    the configured minimum of 7 games), the Segmentation Engine returns a
    strictly increasing list of positive breakpoints whose last entry is
    the signal length, and the [start, end) ranges visited by the segment
    loops cover every index of the signal exactly once, in order. *)
Theorem breakpoints_partition_signal
        (signal : list float) (min_size : nat) (penalty : Q) :
  signal <> [] ->
  ((min_size * 2 <= List.length signal)%nat ->
   (ROLLING_WINDOW <= List.length signal)%nat) ->
  exists bks,
    detect_change_points Ruptures.predict signal min_size penalty = Ok bks /\
    StronglySorted lt bks /\
    Forall (fun b => 0 < b)%nat bks /\
    last bks 0%nat = List.length signal /\
    covered (segment_ranges (List.length signal) bks 0)
    = seq 0 (List.length signal).
Proof.
  intros Hne Hwin.
  assert (Hpos : (0 < List.length signal)%nat).
  { destruct signal; [contradiction|simpl; lia]. }
  assert (Fin : forall bks,
             increasing_from 0 bks -> last bks 0%nat = List.length signal ->
             StronglySorted lt bks /\ Forall (fun b => 0 < b)%nat bks /\
             last bks 0%nat = List.length signal /\
             covered (segment_ranges (List.length signal) bks 0)
             = seq 0 (List.length signal)).
  { intros bks I L. destruct (increasing_from_sorted bks 0 I) as [S P].
    repeat split; try assumption.
    rewrite (segment_ranges_cover _ bks 0 I L). now rewrite Nat.sub_0_r. }
  unfold detect_change_points.
  destruct (Nat.ltb_spec (List.length signal) (min_size * 2)) as [Short|Long].
  - exists [List.length signal]. split; [reflexivity|].
    apply Fin; simpl; auto.
  - specialize (Hwin Long).
    destruct (convolve_same_box_length signal ROLLING_WINDOW Hne)
      as (smoothed & -> & Len); [unfold ROLLING_WINDOW; lia|].
    rewrite Nat.max_l in Len by exact Hwin.
    cbn [Py.bind].
    destruct (PeltFacts.predict_ok smoothed min_size penalty)
      as (bks & -> & I & L); [rewrite Len; lia|].
    exists bks. split; [reflexivity|].
    rewrite Len in L. apply Fin; assumption.
Qed.

Lemma breakpoints_partition_signal_witness :
  exists bks,
    detect_change_points Ruptures.predict
      [0; 0; 0; 0; 0; 0; 0; 2; 2; 2; 2; 2; 2; 2]%float MIN_SEGMENT_SIZE PENALTY
    = Ok bks /\
    StronglySorted lt bks /\
    Forall (fun b => 0 < b)%nat bks /\
    last bks 0%nat = 14%nat /\
    covered (segment_ranges 14 bks 0) = seq 0 14.
Proof.
  apply (breakpoints_partition_signal
           [0; 0; 0; 0; 0; 0; 0; 2; 2; 2; 2; 2; 2; 2]%float
           MIN_SEGMENT_SIZE PENALTY).
  - discriminate.
  - intros _. unfold ROLLING_WINDOW. simpl. lia.
Defined.


(* ------------------------------------------------------------------ *)
(** ** The primary pass *)

Lemma get_game_logs_ext (db db' : DB) (player_id : string) (season : Z) :
  game_batting_logs db = game_batting_logs db' ->
  get_game_logs db player_id season = get_game_logs db' player_id season.
Proof. intro H. unfold get_game_logs. now rewrite H. Qed.

Lemma get_player_seasons_ext (db db' : DB) :
  game_batting_logs db = game_batting_logs db' ->
  get_player_seasons db = get_player_seasons db'.
Proof. intro H. unfold get_player_seasons. now rewrite H. Qed.

Lemma detection_record_insert (tbl : list StreakRow * Z)
      (player_id : string) (season : Z) (stats : SegmentStats)
      (performance : string) :
  map detection_record
      (fst (insert_streak tbl player_id season stats performance))
  = map detection_record (fst tbl)
        ++ [(player_id, season, stats, performance)].
Proof. unfold insert_streak. cbn [fst]. now rewrite map_app. Qed.

Lemma next_keys_succ (last_key : Z) (n : nat) :
  next_keys last_key (S n)
  = next_keys last_key n ++ [last_key + Z.of_nat n + 1].
Proof.
  unfold next_keys. rewrite seq_S, map_app. cbn [map].
  f_equal. f_equal. lia.
Qed.

Section PrimaryPass.

Variable pelt_predict : list float -> nat -> Q -> Py.result (list nat).
Variable np_mean : list float -> float.

(** What every row that the pass inserts for a database [db] satisfies,
    as a rule for invariants of the table under construction: a property
    kept by each such INSERT holds of the final table. *)
Section Invariant.

Variable db : DB.
Variable Inv : list StreakRow * Z -> Prop.

Hypothesis Inv_insert :
  forall tbl player_id season signal i j stats performance,
    Inv tbl ->
    compute_game_ops (get_game_logs db player_id season) = Ok signal ->
    compute_segment_stats (get_game_logs db player_id season) i j
    = Ok stats ->
    label_performance (ops stats) (np_mean signal) = Ok performance ->
    Inv (insert_streak tbl player_id season stats performance).

Lemma build_segments_invariant (player_id : string) (season : Z)
      (signal : list float) (bks : list nat) :
  compute_game_ops (get_game_logs db player_id season) = Ok signal ->
  forall start_idx tbl tbl',
    Inv tbl ->
    build_segments player_id season (get_game_logs db player_id season)
                   (np_mean signal) bks start_idx tbl = Ok tbl' ->
    Inv tbl'.
Proof.
  intro Hs. induction bks as [|b rest IH]; intros start_idx tbl tbl' I H.
  - injection H as <-. exact I.
  - cbn [build_segments] in H.
    set (games := get_game_logs db player_id season) in *.
    set (e := if (List.length games <? b)%nat then List.length games
              else b) in *.
    destruct (compute_segment_stats games start_idx e) as [st|] eqn:Est;
      [|discriminate].
    cbn [Py.bind] in H.
    destruct (label_performance (ops st) (np_mean signal)) as [perf|]
      eqn:Ep; [|discriminate].
    cbn [Py.bind] in H.
    eapply IH; [|exact H]. eapply Inv_insert; eassumption.
Qed.

Lemma detect_loop_invariant (pss : list (string * Z)) :
  forall tbl tbl',
    Inv tbl ->
    detect_loop pelt_predict np_mean db pss tbl = Ok tbl' ->
    Inv tbl'.
Proof.
  induction pss as [|[player_id season] rest IH]; intros tbl tbl' I H.
  - injection H as <-. exact I.
  - cbn [detect_loop] in H.
    destruct (detect_player_season pelt_predict np_mean db tbl
                                   (player_id, season)) as [t|] eqn:E;
      [|discriminate].
    cbn [Py.bind] in H. apply (IH t tbl'); [|exact H].
    unfold detect_player_season in E.
    destruct (List.length (get_game_logs db player_id season)
              <? MIN_SEGMENT_SIZE * 2)%nat.
    + injection E as <-. exact I.
    + destruct (compute_game_ops (get_game_logs db player_id season))
        as [signal|] eqn:Es; [|discriminate].
      cbn [Py.bind] in E.
      destruct (detect_change_points pelt_predict signal MIN_SEGMENT_SIZE
                                     PENALTY) as [bks|]; [|discriminate].
      cbn [Py.bind] in E.
      eapply build_segments_invariant; eassumption.
Qed.

End Invariant.

(** Two runs of the segment loop from tables that hold the same
    records end with tables that hold the same records. *)
Lemma build_segments_replay (player_id : string) (season : Z)
      (games : list Game) (season_ops : float) (bks : list nat) :
  forall start_idx tbl tbl1 tbl',
    build_segments player_id season games season_ops bks start_idx tbl
    = Ok tbl1 ->
    map detection_record (fst tbl) = map detection_record (fst tbl') ->
    exists tbl1',
      build_segments player_id season games season_ops bks start_idx tbl'
      = Ok tbl1' /\
      map detection_record (fst tbl1) = map detection_record (fst tbl1').
Proof.
  induction bks as [|b rest IH]; intros start_idx tbl tbl1 tbl' H R.
  - injection H as <-. exists tbl'. auto.
  - cbn [build_segments] in *.
    set (e := if (List.length games <? b)%nat then List.length games
              else b) in *.
    destruct (compute_segment_stats games start_idx e) as [st|];
      [|discriminate].
    cbn [Py.bind] in *.
    destruct (label_performance (ops st) season_ops) as [perf|];
      [|discriminate].
    cbn [Py.bind] in *.
    apply (IH _ _ _ _ H). rewrite !detection_record_insert. now rewrite R.
Qed.

Lemma detect_player_season_replay (db db' : DB) (ps : string * Z) :
  game_batting_logs db = game_batting_logs db' ->
  forall tbl tbl1 tbl',
    detect_player_season pelt_predict np_mean db tbl ps = Ok tbl1 ->
    map detection_record (fst tbl) = map detection_record (fst tbl') ->
    exists tbl1',
      detect_player_season pelt_predict np_mean db' tbl' ps = Ok tbl1' /\
      map detection_record (fst tbl1) = map detection_record (fst tbl1').
Proof.
  intros L tbl tbl1 tbl' H R. destruct ps as [player_id season].
  unfold detect_player_season in *.
  rewrite <- (get_game_logs_ext db db' player_id season L).
  set (games := get_game_logs db player_id season) in *.
  destruct (List.length games <? MIN_SEGMENT_SIZE * 2)%nat.
  - injection H as <-. exists tbl'. auto.
  - destruct (compute_game_ops games) as [signal|]; [|discriminate].
    cbn [Py.bind] in *.
    destruct (detect_change_points pelt_predict signal MIN_SEGMENT_SIZE
                                   PENALTY) as [bks|]; [|discriminate].
    cbn [Py.bind] in *.
    eapply build_segments_replay; eassumption.
Qed.

Lemma detect_loop_replay (db db' : DB) (pss : list (string * Z)) :
  game_batting_logs db = game_batting_logs db' ->
  forall tbl tbl1 tbl',
    detect_loop pelt_predict np_mean db pss tbl = Ok tbl1 ->
    map detection_record (fst tbl) = map detection_record (fst tbl') ->
    exists tbl1',
      detect_loop pelt_predict np_mean db' pss tbl' = Ok tbl1' /\
      map detection_record (fst tbl1) = map detection_record (fst tbl1').
Proof.
  intro L. induction pss as [|ps rest IH]; intros tbl tbl1 tbl' H R.
  - injection H as <-. exists tbl'. auto.
  - cbn [detect_loop] in *.
    destruct (detect_player_season pelt_predict np_mean db tbl ps)
      as [t|] eqn:E; [|discriminate].
    cbn [Py.bind] in H.
    destruct (detect_player_season_replay db db' ps L _ _ _ E R)
      as (t' & -> & R').
    cbn [Py.bind]. eapply IH; eassumption.
Qed.

(** Full replace: the records a run leaves depend on the game logs
    only, not on what [streaks] (or any other table) held before. *)
Lemma detect_all_streaks_replaces (db db' db1 : DB) :
  game_batting_logs db' = game_batting_logs db ->
  detect_all_streaks pelt_predict np_mean db = Ok db1 ->
  exists db1',
    detect_all_streaks pelt_predict np_mean db' = Ok db1' /\
    map detection_record (streaks db1')
    = map detection_record (streaks db1).
Proof.
  intros L H. symmetry in L. unfold detect_all_streaks in *.
  rewrite <- (get_player_seasons_ext db db' L).
  destruct (detect_loop pelt_predict np_mean db (get_player_seasons db)
                        ([], streaks_seq db)) as [tbl|] eqn:E;
    [|discriminate].
  cbn [Py.bind] in H. injection H as <-.
  destruct (detect_loop_replay db db' _ L _ _ ([], streaks_seq db') E
                               eq_refl) as (tbl' & -> & R).
  cbn [Py.bind]. eexists. split; [reflexivity|].
  cbn [streaks]. auto.
Qed.

(** A run touches [streaks] and its key counter only. *)
Lemma detect_all_streaks_frame (db db1 : DB) :
  detect_all_streaks pelt_predict np_mean db = Ok db1 ->
  players db1 = players db /\
  game_batting_logs db1 = game_batting_logs db /\
  season_batting_stats db1 = season_batting_stats db /\
  streaks_sensitive db1 = streaks_sensitive db /\
  sensitive_seq db1 = sensitive_seq db.
Proof.
  unfold detect_all_streaks.
  destruct (detect_loop pelt_predict np_mean db (get_player_seasons db)
                        ([], streaks_seq db)); [|discriminate].
  cbn [Py.bind]. intro H. injection H as <-. repeat split.
Qed.

(** The keys of the rows of a run continue the key counter. *)
Lemma detect_all_streaks_keys (db db1 : DB) :
  detect_all_streaks pelt_predict np_mean db = Ok db1 ->
  map s_id (streaks db1)
  = next_keys (streaks_seq db) (List.length (streaks db1)) /\
  streaks_seq db1 = streaks_seq db + Z.of_nat (List.length (streaks db1)).
Proof.
  unfold detect_all_streaks.
  destruct (detect_loop pelt_predict np_mean db (get_player_seasons db)
                        ([], streaks_seq db)) as [tbl|] eqn:E;
    [|discriminate].
  cbn [Py.bind]. intro H. injection H as <-. cbn [streaks streaks_seq].
  apply (detect_loop_invariant db
           (fun t => map s_id (fst t)
                     = next_keys (streaks_seq db) (List.length (fst t)) /\
                     snd t = streaks_seq db
                             + Z.of_nat (List.length (fst t)))
           ) with (pss := get_player_seasons db) (tbl := ([], streaks_seq db));
    [| |exact E].
  - intros tbl0 player_id season signal i j stats performance [K S] _ _ _.
    unfold insert_streak. cbn [fst snd].
    rewrite map_app, length_app, Nat.add_comm. cbn [List.length Nat.add map].
    rewrite next_keys_succ, K, S. cbn [s_id]. split; [reflexivity|]. lia.
  - cbn [fst snd List.length map]. split; [reflexivity|]. lia.
Qed.

End PrimaryPass.

Lemma detect_loop_ext
      (pelt_predict : list float -> nat -> Q -> Py.result (list nat))
      (np_mean : list float -> float) (db db' : DB)
      (pss : list (string * Z)) :
  game_batting_logs db = game_batting_logs db' ->
  forall tbl,
    detect_loop pelt_predict np_mean db pss tbl
    = detect_loop pelt_predict np_mean db' pss tbl.
Proof.
  intro L. induction pss as [|[player_id season] rest IH]; intro tbl;
    [reflexivity|].
  cbn [detect_loop]. unfold detect_player_season.
  rewrite <- (get_game_logs_ext db db' player_id season L).
  destruct (List.length (get_game_logs db player_id season)
            <? MIN_SEGMENT_SIZE * 2)%nat; cbn [Py.bind]; [apply IH|].
  destruct (compute_game_ops (get_game_logs db player_id season));
    cbn [Py.bind]; [|reflexivity].
  destruct (detect_change_points pelt_predict a MIN_SEGMENT_SIZE PENALTY);
    cbn [Py.bind]; [|reflexivity].
  destruct (build_segments player_id season
              (get_game_logs db player_id season) (np_mean a) a0 0 tbl);
    cbn [Py.bind]; [apply IH|reflexivity].
Qed.

(** The primary pass on the example database. *)
Lemma judge_primary_run :
  detect_all_streaks Ruptures.predict Examples.mean_in_order
                     Examples.judge_raw
  = Ok Examples.judge_primary.
Proof. vm_compute. reflexivity. Qed.

Lemma ohtani_primary_run :
  detect_all_streaks Ruptures.predict Examples.mean_in_order
                     Examples.ohtani_raw
  = Ok Examples.ohtani_primary.
Proof. vm_compute. reflexivity. Qed.

(** C9, as the spec states it, fails on the stored rows: a second run of the
    primary pass on unchanged input leaves a row that differs from the
    row of the first run, in its AUTOINCREMENT key. *)
Lemma primary_pass_rerun_changes_rows :
  detect_all_streaks Ruptures.predict Examples.mean_in_order
                     Examples.judge_raw
  = Ok Examples.judge_primary /\
  exists db2,
    detect_all_streaks Ruptures.predict Examples.mean_in_order
                       Examples.judge_primary
    = Ok db2 /\
    map s_id (streaks Examples.judge_primary) = [1] /\
    map s_id (streaks db2) = [2] /\
    streaks db2 <> streaks Examples.judge_primary.
Proof.
  split; [exact judge_primary_run|].
  destruct (detect_all_streaks_replaces
              Ruptures.predict Examples.mean_in_order
              Examples.judge_raw Examples.judge_primary
              Examples.judge_primary eq_refl judge_primary_run)
    as (db2 & E & R).
  destruct (detect_all_streaks_keys _ _ _ _ E) as [K _].
  assert (L : List.length (streaks db2) = 1%nat).
  { rewrite <- (length_map detection_record), R, length_map. reflexivity. }
  rewrite L in K.
  exists db2. repeat split; [exact E|exact K|].
  intro Eq. rewrite Eq in K. discriminate K.
Qed.

(** C9 (amended).  A run of the primary pass replaces [streaks]: the
    Detection Records it leaves (player, season, segment stat line and
    label) are those computed from the game logs, whatever the tables
    held before, so a second run on unchanged game logs succeeds and
    leaves the same records in the same order.  The stored rows agree up
    to their AUTOINCREMENT key only: each run numbers its rows after the
    last key handed out. *)
Theorem primary_pass_replaces_records
        (pelt_predict : list float -> nat -> Q -> Py.result (list nat))
        (np_mean : list float -> float) (db db1 : DB) :
  detect_all_streaks pelt_predict np_mean db = Ok db1 ->
  (forall db',
      game_batting_logs db' = game_batting_logs db ->
      exists db1',
        detect_all_streaks pelt_predict np_mean db' = Ok db1' /\
        map detection_record (streaks db1')
        = map detection_record (streaks db1)) /\
  map s_id (streaks db1)
  = next_keys (streaks_seq db) (List.length (streaks db1)) /\
  (exists db2,
      detect_all_streaks pelt_predict np_mean db1 = Ok db2 /\
      map detection_record (streaks db2)
      = map detection_record (streaks db1) /\
      map s_id (streaks db2)
      = next_keys (streaks_seq db + Z.of_nat (List.length (streaks db1)))
                  (List.length (streaks db1)) /\
      game_batting_logs db2 = game_batting_logs db).
Proof.
  intro H.
  destruct (detect_all_streaks_keys _ _ _ _ H) as [K S].
  destruct (detect_all_streaks_frame _ _ _ _ H) as (_ & L & _).
  split; [|split; [exact K|]].
  - intros db' L'.
    exact (detect_all_streaks_replaces _ _ db db' db1 L' H).
  - destruct (detect_all_streaks_replaces _ _ db db1 db1 L H)
      as (db2 & E & R).
    destruct (detect_all_streaks_keys _ _ _ _ E) as [K2 _].
    destruct (detect_all_streaks_frame _ _ _ _ E) as (_ & L2 & _).
    exists db2. split; [exact E|]. split; [exact R|]. split.
    + rewrite K2, S.
      now rewrite <- (length_map detection_record (streaks db2)), R,
        length_map.
    + now rewrite L2.
Qed.

Lemma primary_pass_replaces_records_witness :
  (forall db',
      game_batting_logs db' = game_batting_logs Examples.judge_raw ->
      exists db1',
        detect_all_streaks Ruptures.predict Examples.mean_in_order db'
        = Ok db1' /\
        map detection_record (streaks db1')
        = map detection_record (streaks Examples.judge_primary)) /\
  map s_id (streaks Examples.judge_primary)
  = next_keys (streaks_seq Examples.judge_raw)
              (List.length (streaks Examples.judge_primary)) /\
  (exists db2,
      detect_all_streaks Ruptures.predict Examples.mean_in_order
                         Examples.judge_primary = Ok db2 /\
      map detection_record (streaks db2)
      = map detection_record (streaks Examples.judge_primary) /\
      map s_id (streaks db2)
      = next_keys (streaks_seq Examples.judge_raw
                   + Z.of_nat (List.length (streaks Examples.judge_primary)))
                  (List.length (streaks Examples.judge_primary)) /\
      game_batting_logs db2 = game_batting_logs Examples.judge_raw).
Proof.
  apply (primary_pass_replaces_records
           Ruptures.predict Examples.mean_in_order Examples.judge_raw).
  vm_compute. reflexivity.
Defined.

(* ------------------------------------------------------------------ *)
(** ** The baseline of the primary labels *)




(* ------------------------------------------------------------------ *)
(** ** The Signal Builder and the order of its input *)

Lemma truediv_raise (a b : Z) (e : Py.exn) :
  Py.truediv a b = Raise e -> e = ZeroDivisionError \/ e = OverflowError.
Proof.
  unfold Py.truediv. destruct (b =? 0).
  - intro H. injection H as <-. auto.
  - destruct (is_infinity (Py.nearest_quotient a b)); [|discriminate].
    intro H. injection H as <-. auto.
Qed.

Lemma game_ops_raise (g : Game) (e : Py.exn) :
  game_ops g = Raise e -> e = TypeError \/ e = OverflowError.
Proof.
  intro H.
  assert (N : e <> ZeroDivisionError).
  { intros ->. exact (game_ops_no_zero_division g H). }
  revert H. unfold game_ops.
  destruct (Py.and_positive (g_ab g) && Py.and_positive (g_pa g));
    [|discriminate].
  assert (T : forall A (x : Py.result A), x = Raise e ->
                e = TypeError \/ e = OverflowError ->
                e = TypeError \/ e = OverflowError) by auto.
  destruct (g_h g) as [h|]; cbn [Py.int_operand Py.bind];
    [|intro H; injection H as <-; auto].
  destruct (g_doubles g) as [d|]; cbn [Py.int_operand Py.bind];
    [|intro H; injection H as <-; auto].
  destruct (g_triples g) as [t|]; cbn [Py.int_operand Py.bind];
    [|intro H; injection H as <-; auto].
  destruct (g_hr g) as [hr|]; cbn [Py.int_operand Py.bind];
    [|intro H; injection H as <-; auto].
  destruct (g_ab g) as [ab|]; cbn [Py.int_operand Py.bind];
    [|intro H; injection H as <-; auto].
  destruct (Py.truediv (total_bases h d t hr) ab) as [slg|e1] eqn:E1;
    cbn [Py.bind].
  2:{ intro H. injection H as <-.
      destruct (truediv_raise _ _ _ E1); [contradiction|auto]. }
  destruct (g_bb g) as [bb|]; cbn [Py.int_operand Py.bind];
    [|intro H; injection H as <-; auto].
  destruct (g_pa g) as [pa|]; cbn [Py.int_operand Py.bind];
    [|intro H; injection H as <-; auto].
  destruct (Py.truediv (h + bb) pa) as [obp|e2] eqn:E2; cbn [Py.bind];
    [discriminate|].
  intro H. injection H as <-.
  destruct (truediv_raise _ _ _ E2); [contradiction|auto].
Qed.

Lemma compute_game_ops_map (games : list Game) (signal : list float) :
  compute_game_ops games = Ok signal -> signal = map game_value games.
Proof.
  intro H. apply mapM_ok in H.
  induction H as [|g v games signal Hg _ IH]; [reflexivity|].
  cbn [map]. unfold game_value at 1. rewrite Hg. now f_equal.
Qed.

Lemma sorted_by_date_cons (g : Game) (l : list Game) :
  sorted_by_date (g :: l) = true <->
  match l with
  | [] => True
  | g' :: _ => String.leb (g_date g) (g_date g') = true
  end /\ sorted_by_date l = true.
Proof.
  destruct l as [|g' l']; cbn [sorted_by_date].
  - tauto.
  - rewrite andb_true_iff. tauto.
Qed.

Lemma insert_by_date_sorted (a : Game) (l : list Game) :
  sorted_by_date l = true ->
  sorted_by_date
    (insert_by (fun x y => String.leb (g_date x) (g_date y)) a l) = true.
Proof.
  induction l as [|x l IH]; intro S; [reflexivity|].
  cbn [insert_by]. destruct (String.leb (g_date a) (g_date x)) eqn:E.
  - apply sorted_by_date_cons. split; assumption.
  - apply sorted_by_date_cons in S as [Hd S]. specialize (IH S).
    apply sorted_by_date_cons. split; [|exact IH].
    assert (Lxa : String.leb (g_date x) (g_date a) = true).
    { destruct (String.leb_total (g_date a) (g_date x)); congruence. }
    destruct l as [|y l']; cbn [insert_by]; [exact Lxa|].
    destruct (String.leb (g_date a) (g_date y)); assumption.
Qed.

Lemma order_by_date_sorted (games : list Game) :
  sorted_by_date
    (order_by (fun x y => String.leb (g_date x) (g_date y)) games) = true.
Proof.
  induction games as [|g games IH]; [reflexivity|].
  cbn [order_by fold_right]. apply insert_by_date_sorted. exact IH.
Qed.


(** The loop over player-seasons has no handler: when the signal of a
    player-season that is processed cannot be built, the loop ends with
    an exception. *)
Lemma detect_loop_raises
      (pelt_predict : list float -> nat -> Q -> Py.result (list nat))
      (np_mean : list float -> float) (db : DB)
      (player_id : string) (season : Z) (e : Py.exn) :
  (MIN_SEGMENT_SIZE * 2 <= List.length (get_game_logs db player_id season))%nat ->
  compute_game_ops (get_game_logs db player_id season) = Raise e ->
  forall player_seasons tbl,
    In (player_id, season) player_seasons ->
    exists e',
      detect_loop pelt_predict np_mean db player_seasons tbl = Raise e'.
Proof.
  intros Long Bad.
  assert (Here : forall tbl,
             detect_player_season pelt_predict np_mean db tbl
                                  (player_id, season) = Raise e).
  { intro tbl. unfold detect_player_season.
    replace (List.length (get_game_logs db player_id season)
             <? MIN_SEGMENT_SIZE * 2)%nat with false
      by (symmetry; apply Nat.ltb_ge; exact Long).
    rewrite Bad. reflexivity. }
  induction player_seasons as [|ps rest IH]; intros tbl Hin; [contradiction|].
  cbn [detect_loop].
  destruct (detect_player_season pelt_predict np_mean db tbl ps)
    as [tbl'|e'] eqn:E; cbn [Py.bind]; [|eauto].
  destruct Hin as [->|Hin]; [|exact (IH tbl' Hin)].
  rewrite Here in E. discriminate.
Qed.


(** ** Hottest and coldest segment of the live recomputation *)

Module SelectionOrder.

Lemma SFltb_irrefl (x : spec_float) : SFltb x x = false.
Proof.
  unfold SFltb. destruct x as [s|s| |s m e]; cbn [SFcompare];
    try reflexivity; destruct s; try reflexivity;
    rewrite Z.compare_refl, Pos.compare_cont_refl; reflexivity.
Qed.

Lemma SFltb_trans (x y z : spec_float) :
  SFltb x y = true -> SFltb y z = true -> SFltb x z = true.
Proof.
  unfold SFltb.
  destruct x as [sx|sx| |sx mx ex], y as [sy|sy| |sy my ey],
           z as [sz|sz| |sz mz ez]; cbn [SFcompare];
    try discriminate; try reflexivity;
    try (destruct sx; try discriminate; try reflexivity);
    try (destruct sy; try discriminate; try reflexivity);
    try (destruct sz; try discriminate; try reflexivity);
    intros H1 H2; sf_cases.
Qed.

Lemma SFltb_leb_trans (x y z : spec_float) :
  SFltb x y = true -> SFleb y z = true -> SFltb x z = true.
Proof.
  unfold SFltb, SFleb.
  destruct x as [sx|sx| |sx mx ex], y as [sy|sy| |sy my ey],
           z as [sz|sz| |sz mz ez]; cbn [SFcompare];
    try discriminate; try reflexivity;
    try (destruct sx; try discriminate; try reflexivity);
    try (destruct sy; try discriminate; try reflexivity);
    try (destruct sz; try discriminate; try reflexivity);
    intros H1 H2; sf_cases.
Qed.

Lemma SFleb_ltb_trans (x y z : spec_float) :
  SFleb x y = true -> SFltb y z = true -> SFltb x z = true.
Proof.
  unfold SFltb, SFleb.
  destruct x as [sx|sx| |sx mx ex], y as [sy|sy| |sy my ey],
           z as [sz|sz| |sz mz ez]; cbn [SFcompare];
    try discriminate; try reflexivity;
    try (destruct sx; try discriminate; try reflexivity);
    try (destruct sy; try discriminate; try reflexivity);
    try (destruct sz; try discriminate; try reflexivity);
    intros H1 H2; sf_cases.
Qed.

Lemma SFltb_leb (x y : spec_float) : SFltb x y = true -> SFleb x y = true.
Proof.
  unfold SFltb, SFleb. destruct (SFcompare x y) as [[ | | ]|];
    congruence.
Qed.

Lemma ltb_irrefl (x : float) : (x <? x)%float = false.
Proof. rewrite ltb_spec. apply SFltb_irrefl. Qed.

Lemma ltb_trans (x y z : float) :
  (x <? y)%float = true -> (y <? z)%float = true -> (x <? z)%float = true.
Proof. rewrite !ltb_spec. apply SFltb_trans. Qed.

Lemma ltb_leb_trans (x y z : float) :
  (x <? y)%float = true -> (y <=? z)%float = true -> (x <? z)%float = true.
Proof. rewrite !ltb_spec, leb_spec. apply SFltb_leb_trans. Qed.

Lemma leb_ltb_trans (x y z : float) :
  (x <=? y)%float = true -> (y <? z)%float = true -> (x <? z)%float = true.
Proof. rewrite !ltb_spec, leb_spec. apply SFleb_ltb_trans. Qed.

Lemma ltb_leb (x y : float) :
  (x <? y)%float = true -> (x <=? y)%float = true.
Proof. rewrite ltb_spec, leb_spec. apply SFltb_leb. Qed.

(** Above a new greater key: nothing that was not above the old one. *)
Lemma above_new_max (b z x : float) :
  (b <? z)%float = true -> (b <? x)%float = false ->
  (z <? x)%float = false /\ (z <=? x)%float = false.
Proof.
  intros Hbz Hbx. split.
  - destruct (z <? x)%float eqn:E; [|reflexivity].
    rewrite (ltb_trans _ _ _ Hbz E) in Hbx. discriminate.
  - destruct (z <=? x)%float eqn:E; [|reflexivity].
    rewrite (ltb_leb_trans _ _ _ Hbz E) in Hbx. discriminate.
Qed.

Lemma below_new_min (b z x : float) :
  (z <? b)%float = true -> (x <? b)%float = false ->
  (x <? z)%float = false /\ (x <=? z)%float = false.
Proof.
  intros Hzb Hxb. split.
  - destruct (x <? z)%float eqn:E; [|reflexivity].
    rewrite (ltb_trans _ _ _ E Hzb) in Hxb. discriminate.
  - destruct (x <=? z)%float eqn:E; [|reflexivity].
    rewrite (leb_ltb_trans _ _ _ E Hzb) in Hxb. discriminate.
Qed.

Lemma leb_false_ltb_false (x y : float) :
  (x <=? y)%float = false -> (x <? y)%float = false.
Proof.
  intro H. destruct (x <? y)%float eqn:E; [|reflexivity].
  rewrite (ltb_leb _ _ E) in H. discriminate.
Qed.

Section Selection.

Context {A : Type} (key : A -> float).

Lemma nth_error_snoc_lt (pre : list A) (x : A) (j : nat) (y : A) :
  nth_error (pre ++ [x]) j = Some y -> (j < List.length pre)%nat ->
  nth_error pre j = Some y.
Proof.
  intros H L. rewrite nth_error_app1 in H by exact L. exact H.
Qed.

Lemma nth_error_snoc_last (pre : list A) (x : A) :
  nth_error (pre ++ [x]) (List.length pre) = Some x.
Proof.
  rewrite nth_error_app2 by lia. rewrite Nat.sub_diag. reflexivity.
Qed.

Lemma max_from_spec (xs : list A) :
  forall (pre : list A) (best : nat * A),
    is_max_of key pre best ->
    is_max_of key (pre ++ xs) (max_from key best (List.length pre) xs).
Proof.
  induction xs as [|x xs IH]; intros pre best Hb.
  - rewrite app_nil_r. exact Hb.
  - cbn [max_from].
    replace (pre ++ x :: xs) with ((pre ++ [x]) ++ xs)
      by (rewrite <- app_assoc; reflexivity).
    replace (S (List.length pre)) with (List.length (pre ++ [x]))
      by (rewrite length_app; cbn; lia).
    destruct Hb as (Hn & Hall & Hfirst).
    assert (Hlt : (fst best < List.length pre)%nat)
      by (apply nth_error_Some; congruence).
    destruct (key (snd best) <? key x)%float eqn:E; apply IH.
    + repeat split; cbn [fst snd].
      * apply nth_error_snoc_last.
      * intros y Hy. apply in_app_or in Hy as [Hy|[<-|[]]].
        -- apply (above_new_max _ _ _ E (Hall y Hy)).
        -- apply ltb_irrefl.
      * intros j y Hj Hy. apply nth_error_snoc_lt in Hy; [|exact Hj].
        apply (above_new_max (key (snd best))); [exact E|].
        apply Hall. eapply nth_error_In. exact Hy.
    + repeat split.
      * rewrite nth_error_app1 by exact Hlt. exact Hn.
      * intros y Hy. apply in_app_or in Hy as [Hy|[<-|[]]].
        -- apply Hall, Hy.
        -- exact E.
      * intros j y Hj Hy. apply nth_error_snoc_lt in Hy; [|lia].
        apply (Hfirst j y Hj Hy).
Qed.

Lemma min_from_spec (xs : list A) :
  forall (pre : list A) (best : nat * A),
    is_min_of key pre best ->
    is_min_of key (pre ++ xs) (min_from key best (List.length pre) xs).
Proof.
  induction xs as [|x xs IH]; intros pre best Hb.
  - rewrite app_nil_r. exact Hb.
  - cbn [min_from].
    replace (pre ++ x :: xs) with ((pre ++ [x]) ++ xs)
      by (rewrite <- app_assoc; reflexivity).
    replace (S (List.length pre)) with (List.length (pre ++ [x]))
      by (rewrite length_app; cbn; lia).
    destruct Hb as (Hn & Hall & Hfirst).
    assert (Hlt : (fst best < List.length pre)%nat)
      by (apply nth_error_Some; congruence).
    destruct (key x <? key (snd best))%float eqn:E; apply IH.
    + repeat split; cbn [fst snd].
      * apply nth_error_snoc_last.
      * intros y Hy. apply in_app_or in Hy as [Hy|[<-|[]]].
        -- apply (below_new_min _ _ _ E (Hall y Hy)).
        -- apply ltb_irrefl.
      * intros j y Hj Hy. apply nth_error_snoc_lt in Hy; [|exact Hj].
        apply (below_new_min (key (snd best))); [exact E|].
        apply Hall. eapply nth_error_In. exact Hy.
    + repeat split.
      * rewrite nth_error_app1 by exact Hlt. exact Hn.
      * intros y Hy. apply in_app_or in Hy as [Hy|[<-|[]]].
        -- apply Hall, Hy.
        -- exact E.
      * intros j y Hj Hy. apply nth_error_snoc_lt in Hy; [|lia].
        apply (Hfirst j y Hj Hy).
Qed.

Lemma is_max_of_first (s : A) : is_max_of key [s] (0%nat, s).
Proof.
  repeat split; cbn [fst snd].
  - intros x [<-|[]]. apply ltb_irrefl.
  - intros j x Hj. lia.
Qed.

Lemma is_min_of_first (s : A) : is_min_of key [s] (0%nat, s).
Proof.
  repeat split; cbn [fst snd].
  - intros x [<-|[]]. apply ltb_irrefl.
  - intros j x Hj. lia.
Qed.

End Selection.

End SelectionOrder.

(** Every candidate of the live recomputation is a result of
    [_compute_segment] on the games. *)
Lemma collect_segments_computed (games : list Game) (season_ops : float)
      (breakpoints : list nat) :
  forall (start_idx : nat) (segments : list Segment),
    collect_segments games season_ops breakpoints start_idx = Ok segments ->
    Forall (fun sg => exists i j,
                _compute_segment games i j season_ops = Ok sg) segments.
Proof.
  induction breakpoints as [|e rest IH]; intros start_idx segments H.
  - injection H as <-. constructor.
  - cbn [collect_segments] in H. cbv zeta in H.
    set (e' := if (List.length games <? e)%nat then List.length games
               else e) in H.
    destruct ((FALLBACK_MIN_SEGMENT <=? e' - start_idx)
              && (e' - start_idx <=? FALLBACK_MAX_SEGMENT))%nat.
    + destruct (_compute_segment games start_idx e' season_ops)
        as [sg|] eqn:E; [|discriminate].
      cbn [Py.bind] in H.
      destruct (collect_segments games season_ops rest e')
        as [segs|] eqn:E'; [|discriminate].
      injection H as <-. constructor; [eauto|]. eapply IH, E'.
    + eapply IH, H.
Qed.

(** The fields of a segment that [_compute_segment] returned: its rates
    are rounded quotients and its OPS is the rounded sum of the two
    rounded rates. *)
Lemma _compute_segment_ops (games : list Game) (i j : nat)
      (season_ops : float) (sg : Segment) :
  _compute_segment games i j season_ops = Ok sg ->
  let seg := Py.slice games i j in
  let h := total g_h seg in
  exists obp slg,
    rate (h + total g_bb seg) (total g_pa seg) = Ok obp /\
    rate (total_bases h (total g_doubles seg) (total g_triples seg)
                      (total g_hr seg)) (total g_ab seg) = Ok slg /\
    unrounded_ops games i j = Ok (obp + slg)%float /\
    seg_obp sg = Py.round3 obp /\
    seg_slg sg = Py.round3 slg /\
    seg_ops sg = Py.round3 (Py.round3 obp + Py.round3 slg)%float.
Proof.
  rewrite _compute_segment_eq. cbv zeta. unfold unrounded_ops. cbv zeta.
  set (seg := Py.slice games i j). intro H.
  destruct (rate (total g_h seg) (total g_ab seg)) as [qa|];
    [|discriminate].
  destruct (rate (total g_h seg + total g_bb seg) (total g_pa seg))
    as [qo|]; [|discriminate].
  cbn [Py.bind] in H |- *.
  match type of H with
  | context [rate ?n ?d] => destruct (rate n d) as [qs|]
  end; [|discriminate].
  cbn [Py.bind] in H |- *.
  destruct seg as [|first seg']; [discriminate|].
  destruct (rev (first :: seg')); [discriminate|].
  injection H as <-. exists qo, qs. cbn [seg_obp seg_slg seg_ops].
  repeat split; reflexivity.
Qed.




(** ** The tiers of a streak request *)

Lemma bindM_lift_ok {A B} (a : A) (f : A -> M B) :
  bindM (lift (Ok a)) f = f a.
Proof.
  unfold bindM, lift. cbn [fst snd]. destruct (f a). reflexivity.
Qed.

Lemma bindM_execute {B} (text : string) (params : list sqlval)
      (f : unit -> M B) :
  bindM (execute text params) f
  = (fst (f tt),
     {| sql_text := text; sql_params := params |} :: snd (f tt)).
Proof.
  unfold bindM, execute. cbn [fst snd]. destruct (f tt). reflexivity.
Qed.

Section Tiers.

Variable llm : LLMService.
Variable pelt_predict : list float -> nat -> Q -> Py.result (list nat).
Variable np_mean : list float -> float.
Variable sqlite_run : DB -> string -> string + (list string * list row).
Variable repr_float : float -> string.
Variable db : DB.

(** The live recomputation executes at most one statement, the read of
    the game logs. *)
Lemma _find_best_worst_stretches_log (streak_row : row) :
  snd (_find_best_worst_stretches pelt_predict np_mean db streak_row) = []
  \/ exists player_id season,
      scan_row streak_row None None = (Some player_id, Some season) /\
      snd (_find_best_worst_stretches pelt_predict np_mean db streak_row)
      = [ {| sql_text := SQL_GAME_LOGS;
             sql_params := [VText player_id; VInt season] |} ].
Proof.
  unfold _find_best_worst_stretches.
  destruct (scan_row streak_row None None) as [[player_id|] [season|]];
    try (left; reflexivity).
  destruct (Text.is_empty player_id); [left; reflexivity|].
  right. exists player_id, season. split; [reflexivity|].
  unfold bindM, execute. cbn [fst snd].
  destruct (List.length (get_game_logs db player_id season)
            <? FALLBACK_MIN_SEGMENT * 2)%nat; [reflexivity|].
  unfold lift, ret. cbn [fst snd].
  destruct (fallback_segments pelt_predict np_mean
              (get_game_logs db player_id season)); reflexivity.
Qed.

(** The unfiltered retry never fails and executes at most one
    statement, on the primary records. *)
Lemma _get_all_streaks_for_query_log (sql : string) :
  exists rows,
    fst (_get_all_streaks_for_query db sql) = Ok rows /\
    (snd (_get_all_streaks_for_query db sql) = [] /\ rows = []
     \/ exists params,
         snd (_get_all_streaks_for_query db sql)
         = [ {| sql_text := SQL_ALL_STREAKS; sql_params := params |} ]).
Proof.
  unfold _get_all_streaks_for_query.
  destruct (Text.search Text.like_pattern_at sql) as [name|].
  - eexists. split; [reflexivity|]. right. eexists. reflexivity.
  - exists []. split; [reflexivity|]. left. split; reflexivity.
Qed.

Lemma with_fallback_log (streak_data : string) (first_row : row) :
  snd (with_fallback pelt_predict np_mean db streak_data first_row)
  = snd (_find_best_worst_stretches pelt_predict np_mean db first_row).
Proof.
  unfold with_fallback, bindM.
  destruct (_find_best_worst_stretches pelt_predict np_mean db first_row)
    as [[text|e] log]; cbn [fst snd]; [|reflexivity].
  destruct (Text.is_empty text); cbn [ret]; apply app_nil_r.
Qed.

Lemma narrate_streaks_log (question : string) (hist : history)
      (columns : list string) (rows : list row) (used_fallback : bool) :
  snd (narrate_streaks llm pelt_predict np_mean repr_float db question hist
         columns rows used_fallback)
  = if (used_fallback || (List.length rows =? 1)%nat)%bool
    then snd (_find_best_worst_stretches pelt_predict np_mean db
                (hd [] rows))
    else [].
Proof.
  unfold narrate_streaks. cbv zeta.
  destruct (used_fallback || (List.length rows =? 1)%nat)%bool.
  - rewrite <- (with_fallback_log (format_rows repr_float columns rows)).
    unfold bindM.
    destruct (with_fallback pelt_predict np_mean db
                (format_rows repr_float columns rows) (hd [] rows))
      as [[text|e] log]; cbn [fst snd]; [|reflexivity].
    unfold lift. apply app_nil_r.
  - unfold bindM, ret, lift. reflexivity.
Qed.

End Tiers.

Lemma SQL_ALL_STREAKS_primary :
  Text.contains "streaks_sensitive" SQL_ALL_STREAKS = false /\
  Text.contains "game_batting_logs" SQL_ALL_STREAKS = false /\
  Text.contains "streaks_sensitive" SQL_GAME_LOGS = false /\
  Text.contains "game_batting_logs" SQL_GAME_LOGS = true.
Proof. vm_compute. repeat split; reflexivity. Qed.




(* ------------------------------------------------------------------ *)
(** ** Further properties of the two detection passes *)

Lemma slice_length {A} (xs : list A) (a b : nat) :
  List.length (Py.slice xs a b)
  = Nat.min (b - a) (List.length xs - a).
Proof.
  unfold Py.slice. rewrite length_firstn, length_skipn. reflexivity.
Qed.

Lemma In_insert_by {A} (le : A -> A -> bool) (a x : A) (xs : list A) :
  In x (insert_by le a xs) <-> x = a \/ In x xs.
Proof.
  induction xs as [|y ys IH]; cbn [insert_by].
  - cbn [In]. intuition congruence.
  - destruct (le a y); cbn [In]; [intuition congruence|].
    rewrite IH. intuition congruence.
Qed.

Lemma In_order_by {A} (le : A -> A -> bool) (x : A) (xs : list A) :
  In x (order_by le xs) <-> In x xs.
Proof.
  induction xs as [|y ys IH]; [reflexivity|].
  cbn [order_by fold_right]. rewrite In_insert_by.
  fold (order_by le ys). rewrite IH. cbn [In]. intuition congruence.
Qed.

Lemma pair_eqb_eq (a b : string * Z) : pair_eqb a b = true <-> a = b.
Proof.
  unfold pair_eqb. destruct a as [a1 a2], b as [b1 b2]. cbn [fst snd].
  rewrite andb_true_iff, String.eqb_eq, Z.eqb_eq.
  split; [intros [-> ->]; reflexivity|intro H; injection H; auto].
Qed.

Lemma In_distinct (x : string * Z) (xs : list (string * Z)) :
  In x (distinct xs) <-> In x xs.
Proof.
  induction xs as [|y ys IH]; [reflexivity|].
  cbn [distinct In]. rewrite filter_In, IH.
  destruct (pair_eqb y x) eqn:E.
  - apply pair_eqb_eq in E. subst. cbn [negb]. intuition congruence.
  - cbn [negb]. intuition.
Qed.

Lemma NoDup_distinct (xs : list (string * Z)) : NoDup (distinct xs).
Proof.
  induction xs as [|y ys IH]; [constructor|].
  cbn [distinct]. constructor.
  - rewrite filter_In. intros [_ H].
    assert (E : pair_eqb y y = true) by now apply pair_eqb_eq.
    rewrite E in H. discriminate.
  - now apply NoDup_filter.
Qed.

Lemma NoDup_insert_by {A} (le : A -> A -> bool) (a : A) (xs : list A) :
  ~ In a xs -> NoDup xs -> NoDup (insert_by le a xs).
Proof.
  induction xs as [|y ys IH]; intros Hn Hd; cbn [insert_by].
  - constructor; [exact Hn|constructor].
  - destruct (le a y); [constructor; assumption|].
    inversion Hd as [|? ? Hy Hys]; subst. constructor.
    + rewrite In_insert_by. intros [->|H]; [|contradiction].
      apply Hn. left. reflexivity.
    + apply IH; [|exact Hys]. intro H. apply Hn. right. exact H.
Qed.

Lemma NoDup_order_by {A} (le : A -> A -> bool) (xs : list A) :
  NoDup xs -> NoDup (order_by le xs).
Proof.
  induction xs as [|y ys IH]; intro Hd; [constructor|].
  inversion Hd as [|? ? Hy Hys]; subst.
  cbn [order_by fold_right]. fold (order_by le ys).
  apply NoDup_insert_by; [|now apply IH].
  now rewrite In_order_by.
Qed.


(** The stat line of a segment counts the games of the slice, which is
    not empty. *)
Lemma compute_segment_stats_games (games : list Game) (i j : nat)
      (st : SegmentStats) :
  compute_segment_stats games i j = Ok st ->
  num_games st = List.length (Py.slice games i j) /\
  (1 <= num_games st)%nat /\
  hits st = total g_h (Py.slice games i j) /\
  at_bats st = total g_ab (Py.slice games i j) /\
  home_runs st = total g_hr (Py.slice games i j) /\
  walks st = total g_bb (Py.slice games i j) /\
  strikeouts st = total g_so (Py.slice games i j).
Proof.
  unfold compute_segment_stats, total. cbv zeta.
  set (seg := Py.slice games i j). intro H.
  repeat match type of H with
         | context [Py.bind ?m _] =>
             destruct m; cbn [Py.bind] in H; [|discriminate]
         end.
  destruct seg as [|first seg']; [discriminate|].
  destruct (rev (first :: seg')); [discriminate|].
  injection H as <-. cbn [num_games hits at_bats home_runs walks strikeouts].
  repeat split. cbn [List.length]. lia.
Qed.

Section Passes.

Variable pelt_predict : list float -> nat -> Q -> Py.result (list nat).
Variable np_mean : list float -> float.
Variable db : DB.

Lemma build_segments_rows (player_id : string) (season : Z)
      (games : list Game) (season_ops : float) (bks : list nat) :
  forall start_idx tbl tbl',
    build_segments player_id season games season_ops bks start_idx tbl
    = Ok tbl' ->
    exists rows,
      fst tbl' = fst tbl ++ rows /\
      Forall (fun r =>
                s_player_id r = player_id /\ s_season r = season /\
                exists i j,
                  compute_segment_stats games i j = Ok (s_stats r)) rows.
Proof.
  induction bks as [|b rest IH]; intros start_idx tbl tbl' H.
  - injection H as <-. exists []. rewrite app_nil_r. auto.
  - cbn [build_segments] in H.
    set (e := if (List.length games <? b)%nat then List.length games
              else b) in *.
    destruct (compute_segment_stats games start_idx e) as [st|] eqn:Est;
      [|discriminate].
    cbn [Py.bind] in H.
    destruct (label_performance (ops st) season_ops) as [perf|];
      [|discriminate].
    cbn [Py.bind] in H.
    destruct (IH _ _ _ H) as (rows & E & F).
    unfold insert_streak in E. cbn [fst] in E.
    eexists. split; [rewrite E, <- app_assoc; reflexivity|].
    constructor; [|exact F]. cbn [s_player_id s_season s_stats]. eauto.
Qed.

Lemma detect_loop_rows (pss : list (string * Z)) :
  (forall ps, In ps pss -> In ps (get_player_seasons db)) ->
  forall tbl tbl',
    detect_loop pelt_predict np_mean db pss tbl = Ok tbl' ->
    exists rows,
      fst tbl' = fst tbl ++ rows /\ Forall (primary_row_ok db) rows.
Proof.
  induction pss as [|[player_id season] rest IH]; intros Sub tbl tbl' H.
  - injection H as <-. exists []. rewrite app_nil_r. auto.
  - cbn [detect_loop] in H.
    destruct (detect_player_season pelt_predict np_mean db tbl
                                   (player_id, season)) as [t|] eqn:E;
      [|discriminate].
    cbn [Py.bind] in H.
    destruct (IH (fun ps Hps => Sub ps (or_intror Hps)) _ _ H)
      as (rows & E2 & F2).
    unfold detect_player_season in E.
    destruct (Nat.ltb_spec (List.length (get_game_logs db player_id season))
                           (MIN_SEGMENT_SIZE * 2)) as [Short|Long].
    + injection E as <-. eauto.
    + destruct (compute_game_ops (get_game_logs db player_id season))
        as [signal|]; [|discriminate].
      cbn [Py.bind] in E.
      destruct (detect_change_points pelt_predict signal MIN_SEGMENT_SIZE
                                     PENALTY) as [bks|]; [|discriminate].
      cbn [Py.bind] in E.
      destruct (build_segments_rows _ _ _ _ _ _ _ _ E) as (rows1 & E1 & F1).
      exists (rows1 ++ rows). split.
      * rewrite E2, E1, app_assoc. reflexivity.
      * apply Forall_app. split; [|exact F2].
        eapply Forall_impl; [|exact F1].
        intros r (Hp & Hs & i & j & St). unfold primary_row_ok. cbv zeta.
        rewrite Hp, Hs.
        split; [apply Sub; left; reflexivity|]. split; [exact Long|].
        split; [|eauto].
        destruct (compute_segment_stats_games _ _ _ _ St) as (N & P & _).
        split; [exact P|]. rewrite N, slice_length. lia.
Qed.

Lemma build_sensitive_segments_rows (player_id : string) (season : Z)
      (games : list Game) (season_ops : float) (bks : list nat) :
  forall start_idx tbl tbl',
    build_sensitive_segments player_id season games season_ops bks
                             start_idx tbl = Ok tbl' ->
    exists rows,
      fst tbl' = fst tbl ++ rows /\
      Forall (fun r =>
                x_player_id r = player_id /\ x_season r = season /\
                (MIN_SEGMENT_SIZE <= num_games (x_stats r)
                 <= SENSITIVE_MAX_SEGMENT)%nat /\
                x_season_ops r = Py.round3 season_ops /\
                label_performance (ops (x_stats r)) season_ops
                = Ok (x_performance r)) rows.
Proof.
  induction bks as [|b rest IH]; intros start_idx tbl tbl' H.
  - injection H as <-. exists []. rewrite app_nil_r. auto.
  - cbn [build_sensitive_segments] in H. cbv zeta in H.
    destruct (Nat.ltb_spec (List.length games) b) as [Clamp|NoClamp].
    + destruct (Nat.leb_spec MIN_SEGMENT_SIZE (List.length games - start_idx))
        as [Min|]; cbn [andb] in H; [|exact (IH _ _ _ H)].
      destruct (Nat.leb_spec (List.length games - start_idx)
                             SENSITIVE_MAX_SEGMENT) as [Max|];
        [|exact (IH _ _ _ H)].
      destruct (compute_segment_stats games start_idx (List.length games))
        as [st|] eqn:Est; [|discriminate].
      cbn [Py.bind] in H.
      destruct (label_performance (ops st) season_ops) as [perf|] eqn:Ep;
        [|discriminate].
      cbn [Py.bind] in H.
      destruct (IH _ _ _ H) as (rows & E & F).
      unfold insert_sensitive in E. cbn [fst] in E.
      eexists. split; [rewrite E, <- app_assoc; reflexivity|].
      constructor; [|exact F].
      cbn [x_player_id x_season x_stats x_season_ops x_performance].
      destruct (compute_segment_stats_games _ _ _ _ Est) as (N & _).
      rewrite N, slice_length. repeat split; try assumption; lia.
    + destruct (Nat.leb_spec MIN_SEGMENT_SIZE (b - start_idx))
        as [Min|]; cbn [andb] in H; [|exact (IH _ _ _ H)].
      destruct (Nat.leb_spec (b - start_idx) SENSITIVE_MAX_SEGMENT)
        as [Max|]; [|exact (IH _ _ _ H)].
      destruct (compute_segment_stats games start_idx b)
        as [st|] eqn:Est; [|discriminate].
      cbn [Py.bind] in H.
      destruct (label_performance (ops st) season_ops) as [perf|] eqn:Ep;
        [|discriminate].
      cbn [Py.bind] in H.
      destruct (IH _ _ _ H) as (rows & E & F).
      unfold insert_sensitive in E. cbn [fst] in E.
      eexists. split; [rewrite E, <- app_assoc; reflexivity|].
      constructor; [|exact F].
      cbn [x_player_id x_season x_stats x_season_ops x_performance].
      destruct (compute_segment_stats_games _ _ _ _ Est) as (N & _).
      rewrite N, slice_length.
      unfold MIN_SEGMENT_SIZE in *. repeat split; try assumption; lia.
Qed.

Lemma detect_sensitive_loop_rows (pss : list (string * Z)) :
  (forall ps, In ps pss -> In ps (single_segment_players db)) ->
  forall tbl tbl',
    detect_sensitive_loop pelt_predict np_mean db pss tbl = Ok tbl' ->
    exists rows,
      fst tbl' = fst tbl ++ rows /\ Forall (sensitive_row_ok np_mean db) rows.
Proof.
  induction pss as [|[player_id season] rest IH]; intros Sub tbl tbl' H.
  - injection H as <-. exists []. rewrite app_nil_r. auto.
  - cbn [detect_sensitive_loop] in H.
    destruct (detect_sensitive_player_season pelt_predict np_mean db tbl
                (player_id, season)) as [t|] eqn:E; [|discriminate].
    cbn [Py.bind] in H.
    destruct (IH (fun ps Hps => Sub ps (or_intror Hps)) _ _ H)
      as (rows & E2 & F2).
    unfold detect_sensitive_player_season in E.
    destruct (Nat.ltb_spec (List.length (get_game_logs db player_id season))
                           (MIN_SEGMENT_SIZE * 2)) as [Short|Long].
    + injection E as <-. eauto.
    + destruct (compute_game_ops (get_game_logs db player_id season))
        as [signal|] eqn:Es; [|discriminate].
      cbn [Py.bind] in E.
      destruct (detect_change_points pelt_predict signal MIN_SEGMENT_SIZE
                                     SENSITIVE_PENALTY) as [bks|];
        [|discriminate].
      cbn [Py.bind] in E.
      destruct (build_sensitive_segments_rows _ _ _ _ _ _ _ _ E)
        as (rows1 & E1 & F1).
      exists (rows1 ++ rows). split.
      * rewrite E2, E1, app_assoc. reflexivity.
      * apply Forall_app. split; [|exact F2].
        eapply Forall_impl; [|exact F1].
        intros r (Hp & Hs & Span & So & Lab).
        unfold sensitive_row_ok. cbv zeta. rewrite Hp, Hs.
        split; [apply Sub; left; reflexivity|]. split; [exact Long|].
        split; [exact Span|]. exists signal. auto.
Qed.

End Passes.



(** A player-season of the second pass has exactly one primary record. *)
Lemma single_segment_players_one (db : DB) (k : string * Z) :
  In k (single_segment_players db) ->
  List.length
    (filter (fun r => pair_eqb k (s_player_id r, s_season r)) (streaks db))
  = 1%nat.
Proof.
  unfold single_segment_players. cbv zeta. rewrite filter_In.
  intros [_ H]. apply Nat.eqb_eq in H. rewrite <- H. clear H.
  induction (streaks db) as [|r rs IH]; [reflexivity|].
  cbn [map filter]. destruct (pair_eqb k (s_player_id r, s_season r));
    cbn [List.length]; now rewrite IH.
Qed.



(* ------------------------------------------------------------------ *)
(** ** Further properties of the query engine *)

Lemma scan_row_season_kept (vals : row) :
  forall player_id z, snd (scan_row vals player_id (Some z)) = Some z.
Proof.
  induction vals as [|v rest IH]; intros player_id z; [reflexivity|].
  destruct v as [ |n|q|s]; cbn [scan_row]; try apply IH.
  destruct (falsy_str player_id && negb (String.prefix "20" s)
            && negb (is_label s)); apply IH.
Qed.

Lemma scan_row_player_kept (vals : row) :
  forall p season,
    Text.is_empty p = false ->
    fst (scan_row vals (Some p) season) = Some p.
Proof.
  induction vals as [|v rest IH]; intros p season Hp; [reflexivity|].
  destruct v as [ |n|q|s]; cbn [scan_row]; try (apply IH; exact Hp).
  - destruct season; [apply IH; exact Hp|].
    destruct ((2020 <=? n) && (n <=? 2030)); apply IH; exact Hp.
  - cbn [falsy_str]. rewrite Hp. cbn [andb]. apply IH; exact Hp.
Qed.

Lemma scan_row_no_text (vals : row) :
  forall season,
    Forall (fun v => match v with
                     | VText s => String.prefix "20" s = true
                                  \/ is_label s = true
                     | _ => True
                     end) vals ->
    fst (scan_row vals None season) = None.
Proof.
  induction vals as [|v rest IH]; intros season F; [reflexivity|].
  inversion F as [|? ? Hv Hrest]; subst.
  destruct v as [ |n|q|s]; cbn [scan_row]; try (apply IH; exact Hrest).
  - destruct season; [apply IH; exact Hrest|].
    destruct ((2020 <=? n) && (n <=? 2030)); apply IH; exact Hrest.
  - replace (falsy_str None && negb (String.prefix "20" s)
             && negb (is_label s)) with false; [apply IH; exact Hrest|].
    cbn [falsy_str andb]. destruct Hv as [-> | ->]; [reflexivity|].
    now rewrite andb_false_r.
Qed.

Lemma streak_tuple_head (r : StreakRow) :
  exists tail,
    streak_tuple r
    = VInt (s_id r) :: VText (s_player_id r) :: VInt (s_season r) :: tail.
Proof. eexists. reflexivity. Qed.


(** A row whose id is 2025 and whose season is 2024 is read as
    season 2025. *)
Example scan_row_reads_row_id :
  scan_row (streak_tuple (Examples.season_row 2025 "15640")) None None
  = (Some "15640", Some 2025).
Proof. vm_compute. reflexivity. Qed.








Lemma max_from_ties {A} (key : A -> float) (xs : list A) :
  forall best i,
    Forall (fun x => key x = key (snd best)) xs ->
    max_from key best i xs = best.
Proof.
  induction xs as [|x xs IH]; intros best i F; [reflexivity|].
  inversion F as [|? ? Hx Hxs]; subst. cbn [max_from].
  rewrite Hx, SelectionOrder.ltb_irrefl. apply IH, Hxs.
Qed.

Lemma min_from_ties {A} (key : A -> float) (xs : list A) :
  forall best i,
    Forall (fun x => key x = key (snd best)) xs ->
    min_from key best i xs = best.
Proof.
  induction xs as [|x xs IH]; intros best i F; [reflexivity|].
  inversion F as [|? ? Hx Hxs]; subst. cbn [min_from].
  rewrite Hx, SelectionOrder.ltb_irrefl. apply IH, Hxs.
Qed.



Lemma _compute_segment_games (games : list Game) (i j : nat)
      (season_ops : float) (sg : Segment) :
  _compute_segment games i j season_ops = Ok sg ->
  seg_num_games sg = List.length (Py.slice games i j) /\
  seg_season_ops sg = season_ops.
Proof.
  rewrite _compute_segment_eq. cbv zeta.
  set (seg := Py.slice games i j). intro H.
  repeat match type of H with
         | context [Py.bind ?m _] =>
             destruct m; cbn [Py.bind] in H; [|discriminate]
         end.
  destruct seg as [|first seg']; [discriminate|].
  destruct (rev (first :: seg')); [discriminate|].
  injection H as <-. split; reflexivity.
Qed.





